(** * Chronicle Weaver: the multi-provider AI service, its credential store,
      its cost accountant and the save-slot persistence of the App.

    The development follows the TypeScript sources:
    - [AiService]     the multi-provider service (Gemini, OpenAI, Claude);
    - [GeminiService] the single-provider service the App imports;
    - [App]           the save-sync effect of the App component.

    JavaScript data is embedded as it is at run time: a [value] is what a
    variable of type [any] can hold.  Numbers are the integers (status codes
    and token counts are integral; fractions, NaN and the infinities are not
    represented, and an integer prints in decimal), strings are byte strings
    and [toLowerCase] acts on the ASCII letters.  An [async] function is a
    computation over the browser's [localStorage] and a log of the network
    calls it issued, which either returns or throws a [value]; what the
    upstream answers and what [JSON.parse] makes of a text belong to the
    [Host].  The calls of [console] are left out.  The cost arithmetic is
    read over the rationals. *)

From Stdlib Require Import ZArith QArith Ascii String List DecimalString Lia.
From stdpp Require Import base gmap strings.
Import ListNotations.

Local Open Scope string_scope.
Set Warnings "-register-all".

(** ** JavaScript values *)

Inductive value : Type :=
| VUndefined
| VNull
| VBool (b : bool)
| VNum (n : Z)
| VStr (s : string)
| VArr (items : list value)
| VObj (props : list (string * value))
| VError (message : string).

(** [new Error(message)] *)
Definition Error (message : string) : value := VError message.

(** What a statement or an awaited promise settles to. *)
Inductive Outcome (A : Type) : Type :=
| Returned (a : A)
| Thrown (e : value).
Arguments Returned {A} a.
Arguments Thrown {A} e.

(** ToBoolean: [undefined], [null], [false], [0] and [''] are falsy. *)
Definition truthy (v : value) : bool :=
  match v with
  | VUndefined | VNull => false
  | VBool b => b
  | VNum n => negb (n =? 0)%Z
  | VStr s => negb (String.eqb s "")
  | VArr _ | VObj _ | VError _ => true
  end.

(** [a || b] *)
Definition or_else (a b : value) : value := if truthy a then a else b.
Infix "|||" := or_else (at level 50, left associativity).

Definition nullish (v : value) : bool :=
  match v with VUndefined | VNull => true | _ => false end.

(** Own-property lookup in an object literal or a parsed JSON object: the
    first binding of the name, [undefined] when there is none. *)
Fixpoint assoc (k : string) (props : list (string * value)) : value :=
  match props with
  | [] => VUndefined
  | (k', v) :: rest => if String.eqb k k' then v else assoc k rest
  end.

(** Reading a named property of a value that is neither [undefined] nor
    [null].  The services only read names that no built-in prototype defines
    (storyText, usage, status, ...), so a read from a primitive or from an
    array gives [undefined]; an [Error] carries its [message]. *)
Definition prop (v : value) (k : string) : value :=
  match v with
  | VObj props => assoc k props
  | VError m => if String.eqb k "message" then VStr m else VUndefined
  | _ => VUndefined
  end.

(** The TypeError of a property read from [undefined] or [null] (V8's
    wording). *)
Definition TypeError_read (v : value) (k : string) : value :=
  VError ("Cannot read properties of "
          +:+ (match v with VNull => "null" | _ => "undefined" end)
          +:+ " (reading '" +:+ k +:+ "')").

Definition TypeError_not_a_function (callee : string) : value :=
  VError (callee +:+ " is not a function").

Definition TypeError_not_iterable : value :=
  VError "object is not iterable".

(** [v.k] *)
Definition get (v : value) (k : string) : Outcome value :=
  if nullish v then Thrown (TypeError_read v k) else Returned (prop v k).

(** [v?.k] *)
Definition get_opt (v : value) (k : string) : value :=
  if nullish v then VUndefined else prop v k.

Definition index_name (i : nat) : string :=
  NilZero.string_of_uint (Nat.to_uint i).

(** Reading index [i] of a non-nullish value. *)
Definition item (v : value) (i : nat) : value :=
  match v with
  | VArr items => nth i items VUndefined
  | VStr s => match String.get i s with
              | Some c => VStr (String c "")
              | None => VUndefined
              end
  | VObj props => assoc (index_name i) props
  | _ => VUndefined
  end.

(** [v[i]] *)
Definition get_index (v : value) (i : nat) : Outcome value :=
  if nullish v then Thrown (TypeError_read v (index_name i))
  else Returned (item v i).

(** [v?.[i]] *)
Definition get_index_opt (v : value) (i : nat) : value :=
  if nullish v then VUndefined else item v i.

(** [v === n] for a number literal [n]. *)
Definition is_number (v : value) (n : Z) : bool :=
  match v with VNum m => (m =? n)%Z | _ => false end.

Definition string_of_Z (n : Z) : string :=
  NilZero.string_of_int (Z.to_int n).

(** ToString, as a template literal and [JSON.parse] apply it to their
    argument.  Inside an array [undefined] and [null] print as nothing. *)
Fixpoint ToString (v : value) : string :=
  match v with
  | VUndefined => "undefined"
  | VNull => "null"
  | VBool true => "true"
  | VBool false => "false"
  | VNum n => string_of_Z n
  | VStr s => s
  | VArr items =>
      String.concat ","
        ((fix each (l : list value) : list string :=
            match l with
            | [] => []
            | x :: rest =>
                (if nullish x then "" else ToString x) :: each rest
            end) items)
  | VObj _ => "[object Object]"
  | VError m => if String.eqb m "" then "Error" else "Error: " +:+ m
  end.

(** [Array.prototype.join]: each element through ToString, [undefined] and
    [null] as the empty string. *)
Definition join (sep : string) (items : list value) : string :=
  String.concat sep
    (map (fun x => if nullish x then "" else ToString x) items).

(** ** Strings *)

(** [String.prototype.toLowerCase] on the ASCII letters. *)
Definition lower_ascii (c : ascii) : ascii :=
  let n := nat_of_ascii c in
  if (65 <=? n)%nat && (n <=? 90)%nat then ascii_of_nat (n + 32) else c.

Fixpoint toLowerCase (s : string) : string :=
  match s with
  | EmptyString => EmptyString
  | String c rest => String (lower_ascii c) (toLowerCase rest)
  end.

(** [hay.includes(needle)] *)
Fixpoint includes (hay needle : string) : bool :=
  String.prefix needle hay
  || match hay with
     | EmptyString => false
     | String _ rest => includes rest needle
     end.

Definition newline : string := String "010"%char EmptyString.

(** ** Effects: the browser storage, the network and exceptions *)

(** A call that leaves the page.  The body of a [fetch] is kept as the object
    handed to [JSON.stringify]. *)
Inductive Request : Type :=
| GenerateContent (apiKey : string) (params : value)
| SendMessage (apiKey : string) (chat : value) (params : value)
| Fetch (url : string) (init : value).

(** The [Response] of a [fetch]: [json] and [text] are what awaiting
    [response.json()] and [response.text()] settles to. *)
Record Response : Type := {
  ok : bool;
  status : Z;
  statusText : string;
  json : Outcome value;
  text : Outcome string
}.

(** What the page does not decide: the built-in [JSON.parse] (it throws a
    SyntaxError whose message depends on the engine) and what the upstream
    makes of each request (the promise of the SDK or of [fetch] resolves or
    rejects). *)
Record Host : Type := {
  JSON_parse : string -> Outcome value;
  sdk : Request -> Outcome value;
  http : Request -> Outcome Response
}.

Record World : Type := {
  localStorage : gmap string string;
  network : list Request
}.

(** A JavaScript computation: it runs in a world, leaves a world, and
    returns or throws. *)
Definition JS (A : Type) : Type := World -> Outcome A * World.

Definition ret {A} (a : A) : JS A := fun w => (Returned a, w).

Definition throw {A} (e : value) : JS A := fun w => (Thrown e, w).

Definition bind {A B} (m : JS A) (k : A -> JS B) : JS B :=
  fun w =>
    match m w with
    | (Returned a, w') => k a w'
    | (Thrown e, w') => (Thrown e, w')
    end.

(** [try { body } catch (error) { handler }] *)
Definition try_catch {A} (body : JS A) (handler : value -> JS A) : JS A :=
  fun w =>
    match body w with
    | (Returned a, w') => (Returned a, w')
    | (Thrown e, w') => handler e w'
    end.

(** A pure step that may throw, or awaiting a promise that is settled. *)
Definition lift {A} (o : Outcome A) : JS A := fun w => (o, w).

Declare Scope js_scope.
Delimit Scope js_scope with js.
Notation "x <- c1 ;; c2" := (bind c1 (fun x => c2))
  (at level 100, c1 at next level, right associativity) : js_scope.

(** Issuing a request appends it to the network log; the host settles it. *)
Definition send {A} (reply : Request -> Outcome A) (r : Request) : JS A :=
  fun w =>
    (reply r,
     {| localStorage := localStorage w; network := network w ++ [r] |}).

Definition read_storage {A} (f : gmap string string -> A) : JS A :=
  fun w => (Returned (f (localStorage w)), w).

(** ** aiService.ts: the multi-provider service *)

Module AiService.

(** The enum [AIProvider] that the service imports is declared in a revision
    of types.ts that is not among the sources; its three members carry the
    string values the tests assert.  At run time a provider identifier is a
    string: the tests cast 'UNSUPPORTED' and 'UNKNOWN'. *)
Module AIProvider.
(** Modelled from the spec: the member GEMINI of the enum AIProvider, whose
    declaration is missing; the tests expect 'gemini'. *)
Definition GEMINI : string := "gemini".
(** Modelled from the spec: the member OPENAI of the enum AIProvider, whose
    declaration is missing; the tests expect 'openai'. *)
Definition OPENAI : string := "openai".
(** Modelled from the spec: the member CLAUDE of the enum AIProvider, whose
    declaration is missing; the tests expect 'claude'. *)
Definition CLAUDE : string := "claude".
(** Modelled from the spec: [Object.values(AIProvider)], the three supported
    backends in the order of their declaration. *)
Definition values : list string := [GEMINI; OPENAI; CLAUDE].
End AIProvider.

(** The cases of [switch (provider)]. *)
Inductive Case : Type := CaseGemini | CaseOpenAI | CaseClaude | CaseDefault.

Definition switch (provider : string) : Case :=
  if String.eqb provider AIProvider.GEMINI then CaseGemini
  else if String.eqb provider AIProvider.OPENAI then CaseOpenAI
  else if String.eqb provider AIProvider.CLAUDE then CaseClaude
  else CaseDefault.

Record Pricing : Type := { input : Q; output : Q; image : Q }.

Module PRICING.
Definition GEMINI_FLASH : Pricing :=
  {| input := 0.1 / 1000000; output := 0.4 / 1000000; image := 0.0008 |}.
Definition GEMINI_PRO : Pricing :=
  {| input := 1.25 / 1000000; output := 5.0 / 1000000; image := 0.04 |}.
Definition OPENAI_GPT4 : Pricing :=
  {| input := 10 / 1000000; output := 30 / 1000000; image := 0.04 |}.
Definition OPENAI_GPT3_5 : Pricing :=
  {| input := 0.5 / 1000000; output := 1.5 / 1000000; image := 0.02 |}.
Definition CLAUDE_HAIKU : Pricing :=
  {| input := 0.25 / 1000000; output := 1.25 / 1000000; image := 0.03 |}.
Definition CLAUDE_SONNET : Pricing :=
  {| input := 3 / 1000000; output := 15 / 1000000; image := 0.06 |}.
End PRICING.

Record Usage : Type := {
  inputTokens : value;
  outputTokens : value;
  isPremium : option bool;
  provider : string
}.

(** [ServiceResponse<T>]: the data is whatever the adapter put there. *)
Record ServiceResponse : Type := { data : value; usage : Usage }.

(** [new Error("API_KEY_ERROR")] *)
Definition API_KEY_ERROR : value := Error "API_KEY_ERROR".

(** [(v).toLowerCase()] *)
Definition call_toLowerCase (v : value) : Outcome string :=
  match v with
  | VStr s => Returned (toLowerCase s)
  | _ => Thrown (TypeError_not_a_function "toLowerCase")
  end.

Definition handleGeminiError {A} (error : value) : JS A :=
  (errorMessage <-
     lift (call_toLowerCase
             (get_opt error "message"
              ||| get_opt (get_opt error "error") "message"
              ||| VStr "")) ;;
   let errorCode :=
     get_opt error "code" ||| get_opt (get_opt error "error") "code" in
   if is_number errorCode 403
      || is_number errorCode 404
      || includes errorMessage "permission"
      || includes errorMessage "not found"
      || includes errorMessage "api_key_invalid"
   then throw API_KEY_ERROR
   else throw error)%js.

Definition handleOpenAIError {A} (error : value) : JS A :=
  if is_number (get_opt error "status") 401
  then throw API_KEY_ERROR
  else throw error.

Definition handleClaudeError {A} (error : value) : JS A :=
  if is_number (get_opt error "status") 401
  then throw API_KEY_ERROR
  else throw error.

Definition API_KEY_STORAGE_PREFIX : string := "CHRONICLE_WEAVER_API_KEY_".

Definition getStoredApiKey (provider : string)
    (storage : gmap string string) : string :=
  match storage !! (API_KEY_STORAGE_PREFIX +:+ provider) with
  | Some key => if String.eqb key "" then "" else key
  | None => ""
  end.

Definition setStoredApiKey (provider key : string)
    (storage : gmap string string) : gmap string string :=
  if negb (String.eqb key "")
  then <[API_KEY_STORAGE_PREFIX +:+ provider := key]> storage
  else delete (API_KEY_STORAGE_PREFIX +:+ provider) storage.

Definition hasApiKey (provider : string)
    (storage : gmap string string) : bool :=
  (0 <? String.length (getStoredApiKey provider storage))%nat.

Definition clearAllApiKeys (storage : gmap string string)
    : gmap string string :=
  fold_left
    (fun st provider => delete (API_KEY_STORAGE_PREFIX +:+ provider) st)
    AIProvider.values storage.

Definition getProviderKey (provider : string) : JS string :=
  read_storage (getStoredApiKey provider).

(** ['standard' | 'fast'] *)
Inductive Quality : Type := standard_quality | fast.

(** ['flash' | 'pro' | 'standard'] *)
Inductive ModelType : Type := flash | pro | standard.

Definition is_pro (modelType : ModelType) : bool :=
  match modelType with pro => true | _ => false end.

(** [Type.STRING] and the like are the SDK's string constants. *)
Definition string_type : value := VObj [("type", VStr "STRING")].
Definition string_array_type : value :=
  VObj [("type", VStr "ARRAY"); ("items", string_type)].

Definition responseSchema : value :=
  VObj [("type", VStr "OBJECT");
        ("properties",
         VObj [("storyText", string_type);
               ("choices", string_array_type);
               ("inventory", string_array_type);
               ("currentQuest", string_type);
               ("visualPrompt", string_type);
               ("worldStyle", string_type);
               ("genre", string_type)]);
        ("required",
         VArr [VStr "storyText"; VStr "choices"; VStr "inventory";
               VStr "currentQuest"; VStr "visualPrompt"; VStr "worldStyle";
               VStr "genre"])].

(** The headers and the body of the POST requests. *)
Definition post (headers : list (string * value)) (body : value) : value :=
  VObj [("method", VStr "POST"); ("headers", VObj headers); ("body", body)].

Definition openai_headers (apiKey : string) : list (string * value) :=
  [("Authorization", VStr ("Bearer " +:+ apiKey));
   ("Content-Type", VStr "application/json")].

Definition claude_headers (apiKey : string) : list (string * value) :=
  [("x-api-key", VStr apiKey);
   ("Content-Type", VStr "application/json");
   ("anthropic-version", VStr "2023-06-01")].

(** [(v).join(sep)] *)
Definition call_join (v : value) (sep : string) : Outcome string :=
  match v with
  | VArr items => Returned (join sep items)
  | _ => Thrown (TypeError_not_a_function "join")
  end.

(** The values a [for ... of] loop visits. *)
Definition iterate (v : value) : Outcome (list value) :=
  match v with
  | VArr items => Returned items
  | VStr s =>
      Returned (map (fun c => VStr (String c "")) (list_ascii_of_string s))
  | _ => Thrown TypeError_not_iterable
  end.

(** The loop of the image adapters: the first part with a truthy
    [inlineData] gives the image and ends the loop. *)
Fixpoint first_inline_image (parts : list value) : Outcome value :=
  match parts with
  | [] => Returned VUndefined
  | part :: rest =>
      match get part "inlineData" with
      | Thrown e => Thrown e
      | Returned inlineData =>
          if truthy inlineData
          then Returned
                 (VStr ("data:image/png;base64,"
                        +:+ ToString (prop inlineData "data")))
          else first_inline_image rest
      end
  end.

(** The object literal that [openaiGenerateStory] and [claudeGenerateStory]
    build from the parsed reply. *)
Definition withDefaults (parsed : value) : JS value :=
  (storyText <- lift (get parsed "storyText") ;;
   choices <- lift (get parsed "choices") ;;
   inventory <- lift (get parsed "inventory") ;;
   currentQuest <- lift (get parsed "currentQuest") ;;
   visualPrompt <- lift (get parsed "visualPrompt") ;;
   worldStyle <- lift (get parsed "worldStyle") ;;
   genre <- lift (get parsed "genre") ;;
   ret (VObj [("storyText", storyText ||| VStr "The story begins...");
              ("choices", choices ||| VArr [VStr "Continue"]);
              ("inventory", inventory ||| VArr []);
              ("currentQuest", currentQuest ||| VStr "Unknown quest");
              ("visualPrompt", visualPrompt ||| VStr "A mysterious scene");
              ("worldStyle", worldStyle ||| VStr "fantasy");
              ("genre", genre ||| VStr "Fantasy")]))%js.

(** The template literal of the system directive of the chat, by what is
    interpolated and by the indentation of its lines in the source. *)
Definition personaText (indent genre currentQuest items : string) : string :=
  "You are the Chronicler, a wise and helpful sidekick in this infinite adventure game. "
  +:+ newline +:+ indent
  +:+ "The current genre is " +:+ genre
  +:+ ". The player's quest is: " +:+ currentQuest +:+ "."
  +:+ newline +:+ indent
  +:+ "Their inventory includes: " +:+ items +:+ "."
  +:+ newline +:+ indent
  +:+ "If the genre is '80s Sci-Fi Horror', speak with 80s slang like 'rad', 'bogus', or 'tubular' occasionally.".

(** The system directive; the three branches of [getChatResponse] write the
    same template literal at their own indentation. *)
Definition persona (indent : string) (gameContext : value) : JS string :=
  (genre <- lift (get gameContext "genre") ;;
   currentQuest <- lift (get gameContext "currentQuest") ;;
   inventory <- lift (get gameContext "inventory") ;;
   items <- lift (call_join (inventory ||| VArr []) ", ") ;;
   ret (personaText indent (ToString genre) (ToString currentQuest) items))%js.

Definition indent12 : string := "            ".
Definition indent16 : string := "                ".

(** The requests of the adapters, by the arguments that vary. *)

Definition geminiStoryRequest (apiKey prompt : string) : Request :=
  GenerateContent apiKey
    (VObj [("model", VStr "gemini-2.0-flash-exp");
           ("contents", VStr prompt);
           ("config",
            VObj [("responseMimeType", VStr "application/json");
                  ("responseSchema", responseSchema)])]).

Definition geminiImageRequest (apiKey fullPrompt : string) : Request :=
  GenerateContent apiKey
    (VObj [("model", VStr "gemini-2.0-flash-exp");
           ("contents",
            VObj [("parts", VArr [VObj [("text", VStr fullPrompt)]])])]).

Definition geminiChatRequest (apiKey systemInstruction message : string)
    : Request :=
  SendMessage apiKey
    (VObj [("model", VStr "gemini-2.0-flash-exp");
           ("config",
            VObj [("systemInstruction", VStr systemInstruction)])])
    (VObj [("message", VStr message)]).

Definition openaiStoryRequest (apiKey prompt : string) : Request :=
  Fetch "https://api.openai.com/v1/chat/completions"
    (post (openai_headers apiKey)
       (VObj [("model", VStr "gpt-4o-mini");
              ("messages",
               VArr [VObj [("role", VStr "user");
                           ("content", VStr prompt)]]);
              ("response_format", VObj [("type", VStr "json_object")])])).

Definition openaiImageRequest (apiKey fullPrompt : string)
    (quality : Quality) : Request :=
  Fetch "https://api.openai.com/v1/images/generations"
    (post (openai_headers apiKey)
       (VObj [("model", VStr "dall-e-3");
              ("prompt", VStr fullPrompt);
              ("size",
               VStr match quality with
                    | fast => "1024x1024"
                    | standard_quality => "1024x1024"
                    end);
              ("quality", VStr "standard");
              ("style",
               VStr match quality with
                    | fast => "natural"
                    | standard_quality => "vivid"
                    end)])).

Definition openaiChatRequest (apiKey content message : string) : Request :=
  Fetch "https://api.openai.com/v1/chat/completions"
    (post (openai_headers apiKey)
       (VObj [("model", VStr "gpt-4o-mini");
              ("messages",
               VArr [VObj [("role", VStr "system");
                           ("content", VStr content)];
                     VObj [("role", VStr "user");
                           ("content", VStr message)]])])).

Definition claudeStoryRequest (apiKey prompt : string) : Request :=
  Fetch "https://api.anthropic.com/v1/messages"
    (post (claude_headers apiKey)
       (VObj [("model", VStr "claude-3-5-haiku-20241022");
              ("max_tokens", VNum 1000);
              ("messages",
               VArr [VObj [("role", VStr "user");
                           ("content", VStr prompt)]])])).

Definition claudeChatRequest (apiKey system message : string) : Request :=
  Fetch "https://api.anthropic.com/v1/messages"
    (post (claude_headers apiKey)
       (VObj [("model", VStr "claude-3-5-haiku-20241022");
              ("max_tokens", VNum 1000);
              ("system", VStr system);
              ("messages",
               VArr [VObj [("role", VStr "user");
                           ("content", VStr message)]])])).

Section Adapters.

Variable host : Host.

(** *** Gemini *)

Definition geminiGenerateStory (prompt : string) : JS ServiceResponse :=
  (apiKey <- getProviderKey AIProvider.GEMINI ;;
   response <-
     send (sdk host) (geminiStoryRequest apiKey prompt) ;;
   metadata <- lift (get response "usageMetadata") ;;
   text <- lift (get response "text") ;;
   parsed <- lift (JSON_parse host (ToString (text ||| VStr "{}"))) ;;
   ret {| data := parsed;
          usage := {| inputTokens :=
                        get_opt metadata "promptTokenCount" ||| VNum 0;
                      outputTokens :=
                        get_opt metadata "candidatesTokenCount" ||| VNum 0;
                      isPremium := None;
                      provider := AIProvider.GEMINI |} |})%js.

Definition geminiGenerateImage (prompt style : string) (quality : Quality)
    : JS ServiceResponse :=
  (apiKey <- getProviderKey AIProvider.GEMINI ;;
   let fullPrompt :=
     match quality with
     | fast =>
         "Simple " +:+ style +:+ " style: " +:+ prompt
         +:+ ". Minimal detail, basic colors."
     | standard_quality =>
         "Art Style: " +:+ style +:+ ". Scene: " +:+ prompt
         +:+ ". Cinematic lighting, evocative mood."
     end in
   response <-
     send (sdk host) (geminiImageRequest apiKey fullPrompt) ;;
   candidates <- lift (get response "candidates") ;;
   parts <-
     lift (iterate
             (get_opt (get_opt (get_index_opt candidates 0) "content") "parts"
              ||| VArr [])) ;;
   imageData <- lift (first_inline_image parts) ;;
   metadata <- lift (get response "usageMetadata") ;;
   ret {| data := imageData;
          usage := {| inputTokens :=
                        get_opt metadata "promptTokenCount" ||| VNum 0;
                      outputTokens :=
                        get_opt metadata "candidatesTokenCount" ||| VNum 0;
                      isPremium := Some false;
                      provider := AIProvider.GEMINI |} |})%js.

(** *** OpenAI *)

Definition openaiGenerateStory (prompt : string) : JS ServiceResponse :=
  (apiKey <- getProviderKey AIProvider.OPENAI ;;
   response <-
     send (http host) (openaiStoryRequest apiKey prompt) ;;
   if negb (ok response)
   then throw (Error ("OpenAI API error: " +:+ statusText response))
   else
     data <- lift (json response) ;;
     gameState <-
       try_catch
         (choices <- lift (get data "choices") ;;
          choice <- lift (get_index choices 0) ;;
          message <- lift (get choice "message") ;;
          content <- lift (get message "content") ;;
          parsed <- lift (JSON_parse host (ToString content)) ;;
          withDefaults parsed)
         (fun parseError =>
            throw (Error "Invalid response format from OpenAI")) ;;
     usage1 <- lift (get data "usage") ;;
     prompt_tokens <- lift (get usage1 "prompt_tokens") ;;
     usage2 <- lift (get data "usage") ;;
     completion_tokens <- lift (get usage2 "completion_tokens") ;;
     ret {| data := gameState;
            usage := {| inputTokens := prompt_tokens;
                        outputTokens := completion_tokens;
                        isPremium := None;
                        provider := AIProvider.OPENAI |} |})%js.

Definition openaiGenerateImage (prompt style : string) (quality : Quality)
    : JS ServiceResponse :=
  (let fullPrompt :=
     match quality with
     | fast =>
         "Simple " +:+ style +:+ " style: " +:+ prompt
         +:+ ". Minimal detail, flat colors."
     | standard_quality =>
         "Art Style: " +:+ style +:+ ". Scene: " +:+ prompt
         +:+ ". Cinematic lighting, evocative mood."
     end in
   apiKey <- getProviderKey AIProvider.OPENAI ;;
   response <-
     send (http host) (openaiImageRequest apiKey fullPrompt quality) ;;
   if negb (ok response)
   then
     errorText <- lift (text response) ;;
     throw (Error ("OpenAI API error: " +:+ statusText response
                   +:+ " - " +:+ errorText))
   else
     data <- lift (json response) ;;
     images <- lift (get data "data") ;;
     image0 <- lift (get_index images 0) ;;
     url <- lift (get image0 "url") ;;
     ret {| data := url;
            usage := {| inputTokens := VNum 0;
                        outputTokens := VNum 0;
                        isPremium := Some true;
                        provider := AIProvider.OPENAI |} |})%js.

(** *** Claude (text only) *)

Definition claudeGenerateStory (prompt : string) : JS ServiceResponse :=
  (apiKey <- getProviderKey AIProvider.CLAUDE ;;
   response <-
     send (http host) (claudeStoryRequest apiKey prompt) ;;
   if negb (ok response)
   then throw (Error ("Claude API error: " +:+ statusText response))
   else
     data <- lift (json response) ;;
     gameState <-
       try_catch
         (content <- lift (get data "content") ;;
          block <- lift (get_index content 0) ;;
          text <- lift (get block "text") ;;
          parsed <- lift (JSON_parse host (ToString text)) ;;
          withDefaults parsed)
         (fun parseError =>
            throw (Error "Invalid response format from Claude")) ;;
     usage1 <- lift (get data "usage") ;;
     input_tokens <- lift (get usage1 "input_tokens") ;;
     usage2 <- lift (get data "usage") ;;
     output_tokens <- lift (get usage2 "output_tokens") ;;
     ret {| data := gameState;
            usage := {| inputTokens := input_tokens;
                        outputTokens := output_tokens;
                        isPremium := None;
                        provider := AIProvider.CLAUDE |} |})%js.

Definition claudeGenerateImage : JS ServiceResponse :=
  ret {| data := VUndefined;
         usage := {| inputTokens := VNum 0;
                     outputTokens := VNum 0;
                     isPremium := None;
                     provider := AIProvider.CLAUDE |} |}.

(** *** The exported functions *)

Definition unsupported (provider : string) : value :=
  Error ("Unsupported provider: " +:+ provider).

(** The [catch] block of the three exported functions. *)
Definition classify {A} (provider : string) (error : value) : JS A :=
  match switch provider with
  | CaseGemini => handleGeminiError error
  | CaseOpenAI => handleOpenAIError error
  | CaseClaude => handleClaudeError error
  | CaseDefault => throw error
  end.

Definition generateStoryBeat (prompt provider : string)
    : JS ServiceResponse :=
  try_catch
    match switch provider with
    | CaseGemini => geminiGenerateStory prompt
    | CaseOpenAI => openaiGenerateStory prompt
    | CaseClaude => claudeGenerateStory prompt
    | CaseDefault => throw (unsupported provider)
    end
    (classify provider).

Definition generateImage (prompt style provider : string)
    (quality : Quality) : JS ServiceResponse :=
  try_catch
    match switch provider with
    | CaseGemini => geminiGenerateImage prompt style quality
    | CaseOpenAI => openaiGenerateImage prompt style quality
    | CaseClaude => claudeGenerateImage
    | CaseDefault => throw (unsupported provider)
    end
    (classify provider).

Definition geminiChat (message : string) (gameContext : value)
    : JS ServiceResponse :=
  (apiKey <- getProviderKey AIProvider.GEMINI ;;
   systemInstruction <- persona indent12 gameContext ;;
   geminiResponse <-
     send (sdk host) (geminiChatRequest apiKey systemInstruction message) ;;
   geminiMetadata <- lift (get geminiResponse "usageMetadata") ;;
   text <- lift (get geminiResponse "text") ;;
   ret {| data := text ||| VStr "I apologize, my vision is clouded...";
          usage := {| inputTokens :=
                        get_opt geminiMetadata "promptTokenCount" ||| VNum 0;
                      outputTokens :=
                        get_opt geminiMetadata "candidatesTokenCount"
                        ||| VNum 0;
                      isPremium := None;
                      provider := AIProvider.GEMINI |} |})%js.

Definition openaiChat (message : string) (gameContext : value)
    : JS ServiceResponse :=
  (apiKey <- getProviderKey AIProvider.OPENAI ;;
   content <- persona indent16 gameContext ;;
   openaiResponse <-
     send (http host) (openaiChatRequest apiKey content message) ;;
   if negb (ok openaiResponse)
   then throw (Error ("OpenAI API error: " +:+ statusText openaiResponse))
   else
     openaiData <- lift (json openaiResponse) ;;
     choices <- lift (get openaiData "choices") ;;
     choice <- lift (get_index choices 0) ;;
     reply <- lift (get choice "message") ;;
     answer <- lift (get reply "content") ;;
     usage1 <- lift (get openaiData "usage") ;;
     prompt_tokens <- lift (get usage1 "prompt_tokens") ;;
     usage2 <- lift (get openaiData "usage") ;;
     completion_tokens <- lift (get usage2 "completion_tokens") ;;
     ret {| data := answer;
            usage := {| inputTokens := prompt_tokens;
                        outputTokens := completion_tokens;
                        isPremium := None;
                        provider := AIProvider.OPENAI |} |})%js.

Definition claudeChat (message : string) (gameContext : value)
    : JS ServiceResponse :=
  (apiKey <- getProviderKey AIProvider.CLAUDE ;;
   system <- persona indent12 gameContext ;;
   claudeResponse <-
     send (http host) (claudeChatRequest apiKey system message) ;;
   if negb (ok claudeResponse)
   then throw (Error ("Claude API error: " +:+ statusText claudeResponse))
   else
     claudeData <- lift (json claudeResponse) ;;
     content <- lift (get claudeData "content") ;;
     block <- lift (get_index content 0) ;;
     answer <- lift (get block "text") ;;
     usage1 <- lift (get claudeData "usage") ;;
     input_tokens <- lift (get usage1 "input_tokens") ;;
     usage2 <- lift (get claudeData "usage") ;;
     output_tokens <- lift (get usage2 "output_tokens") ;;
     ret {| data := answer;
            usage := {| inputTokens := input_tokens;
                        outputTokens := output_tokens;
                        isPremium := None;
                        provider := AIProvider.CLAUDE |} |})%js.

(** The three cases of [getChatResponse] are written in line in the source;
    they are named here. *)
Definition getChatResponse (message : string) (gameContext : value)
    (provider : string) : JS ServiceResponse :=
  try_catch
    match switch provider with
    | CaseGemini => geminiChat message gameContext
    | CaseOpenAI => openaiChat message gameContext
    | CaseClaude => claudeChat message gameContext
    | CaseDefault => throw (unsupported provider)
    end
    (classify provider).

End Adapters.

(** The cost arithmetic is read over the rationals: the rounding of the
    doubles is not modelled. *)
Definition calculateEstimatedCost
    (inputTokens outputTokens images premiumImages : Q)
    (provider : string) (modelType : ModelType) : Q :=
  let pricing :=
    match switch provider with
    | CaseGemini =>
        if is_pro modelType then PRICING.GEMINI_PRO
        else PRICING.GEMINI_FLASH
    | CaseOpenAI =>
        if is_pro modelType then PRICING.OPENAI_GPT4
        else PRICING.OPENAI_GPT3_5
    | CaseClaude =>
        if is_pro modelType then PRICING.CLAUDE_SONNET
        else PRICING.CLAUDE_HAIKU
    | CaseDefault => PRICING.GEMINI_FLASH
    end in
  let textCost :=
    (inputTokens * input pricing + outputTokens * output pricing)%Q in
  let imageCost :=
    (images * image pricing + premiumImages * image pricing)%Q in
  (textCost + imageCost)%Q.

End AiService.

(** ** geminiService.ts: the single-provider service of the App *)

Module GeminiService.

Module PRICING.
Definition FLASH_TEXT : Q * Q := (0.1 / 1000000, 0.4 / 1000000)%Q.
Definition PRO_TEXT : Q * Q := (1.25 / 1000000, 5.0 / 1000000)%Q.
Definition FLASH_IMAGE : Q := 0.0008.
Definition PRO_IMAGE : Q := 0.04.
End PRICING.

(** The service response of this module has no provider tag. *)
Record Usage : Type := {
  inputTokens : value;
  outputTokens : value;
  isPremium : option bool
}.

Record ServiceResponse : Type := { data : value; usage : Usage }.

Definition handleGenAIError {A} (error : value) : JS A :=
  (errorMessage <-
     lift (AiService.call_toLowerCase
             (get_opt error "message"
              ||| get_opt (get_opt error "error") "message"
              ||| VStr "")) ;;
   let errorCode :=
     get_opt error "code" ||| get_opt (get_opt error "error") "code" in
   if is_number errorCode 403
      || is_number errorCode 404
      || includes errorMessage "permission"
      || includes errorMessage "not found"
      || includes errorMessage "api_key_invalid"
   then throw AiService.API_KEY_ERROR
   else throw error)%js.

(** ['flash' | 'pro'] *)
Inductive ModelType : Type := flash | pro.

(** [enum ImageSize] *)
Inductive ImageSize : Type := K1 | K2 | K4.

Definition ImageSize_value (size : ImageSize) : string :=
  match size with K1 => "1K" | K2 => "2K" | K4 => "4K" end.

Section Service.

Variable host : Host.

(** [process.env.API_KEY || ''] *)
Variable API_KEY : string.

Definition generateImage (prompt style : string) (size : ImageSize)
    (isHighResRequested : bool) : JS ServiceResponse :=
  let model :=
    if isHighResRequested then "gemini-3-pro-image-preview"
    else "gemini-2.5-flash-image" in
  let fullPrompt :=
    "Art Style: " +:+ style +:+ ". Scene: " +:+ prompt
    +:+ ". Cinematic lighting, evocative mood." in
  try_catch
    (response <-
       send (sdk host)
         (GenerateContent API_KEY
            (VObj [("model", VStr model);
                   ("contents",
                    VObj [("parts",
                           VArr [VObj [("text", VStr fullPrompt)]])]);
                   ("config",
                    if isHighResRequested
                    then VObj [("imageConfig",
                                VObj [("aspectRatio", VStr "16:9");
                                      ("imageSize",
                                       VStr (ImageSize_value size))])]
                    else VObj [])])) ;;
     candidates <- lift (get response "candidates") ;;
     parts <-
       lift (AiService.iterate
               (get_opt (get_opt (get_index_opt candidates 0) "content")
                  "parts"
                ||| VArr [])) ;;
     imageData <- lift (AiService.first_inline_image parts) ;;
     metadata <- lift (get response "usageMetadata") ;;
     ret {| data := imageData;
            usage := {| inputTokens :=
                          get_opt metadata "promptTokenCount" ||| VNum 0;
                        outputTokens :=
                          get_opt metadata "candidatesTokenCount" ||| VNum 0;
                        isPremium := Some isHighResRequested |} |})%js
    handleGenAIError.

(** The second parameter of the source, [currentGameState], is not read. *)
Definition generateStoryBeat (prompt : string) : JS ServiceResponse :=
  try_catch
    (response <-
       send (sdk host)
         (GenerateContent API_KEY
            (VObj [("model", VStr "gemini-3-flash-preview");
                   ("contents", VStr prompt);
                   ("config",
                    VObj [("responseMimeType", VStr "application/json");
                          ("responseSchema", AiService.responseSchema)])])) ;;
     metadata <- lift (get response "usageMetadata") ;;
     text <- lift (get response "text") ;;
     parsed <- lift (JSON_parse host (ToString (text ||| VStr "{}"))) ;;
     ret {| data := parsed;
            usage := {| inputTokens :=
                          get_opt metadata "promptTokenCount" ||| VNum 0;
                        outputTokens :=
                          get_opt metadata "candidatesTokenCount" ||| VNum 0;
                        isPremium := None |} |})%js
    handleGenAIError.

(** The system directive: [gameContext.inventory.join(', ')] is called on
    the inventory as it is. *)
Definition persona (gameContext : value) : JS string :=
  (genre <- lift (get gameContext "genre") ;;
   currentQuest <- lift (get gameContext "currentQuest") ;;
   inventory <- lift (get gameContext "inventory") ;;
   items <-
     lift (if nullish inventory then Thrown (TypeError_read inventory "join")
           else AiService.call_join inventory ", ") ;;
   ret (AiService.personaText "        " (ToString genre)
          (ToString currentQuest) items))%js.

Definition getChatResponse (message : string) (gameContext : value)
    : JS ServiceResponse :=
  try_catch
    (systemInstruction <- persona gameContext ;;
     response <-
       send (sdk host)
         (SendMessage API_KEY
            (VObj [("model", VStr "gemini-3-pro-preview");
                   ("config",
                    VObj [("systemInstruction", VStr systemInstruction)])])
            (VObj [("message", VStr message)])) ;;
     metadata <- lift (get response "usageMetadata") ;;
     text <- lift (get response "text") ;;
     ret {| data := text ||| VStr "I apologize, my vision is clouded...";
            usage := {| inputTokens :=
                          get_opt metadata "promptTokenCount" ||| VNum 0;
                        outputTokens :=
                          get_opt metadata "candidatesTokenCount" ||| VNum 0;
                        isPremium := None |} |})%js
    handleGenAIError.

End Service.

Definition calculateEstimatedCost
    (inputTokens outputTokens images premiumImages : Q)
    (modelType : ModelType) : Q :=
  let textPrice :=
    match modelType with
    | pro => PRICING.PRO_TEXT
    | flash => PRICING.FLASH_TEXT
    end in
  let textCost :=
    (inputTokens * fst textPrice + outputTokens * snd textPrice)%Q in
  let imageCost :=
    (images * PRICING.FLASH_IMAGE + premiumImages * PRICING.PRO_IMAGE)%Q in
  (textCost + imageCost)%Q.

End GeminiService.

(** ** App.tsx: the effect that syncs the game to its save slot *)

Module App.

Record GameHistoryItem : Type := {
  text : string;
  choice : string;
  imageUrl : option string;
  state : option value
}.

Record UsageStats : Type := {
  inputTokens : Q;
  outputTokens : Q;
  imageCount : Q;
  premiumImageCount : Q;
  estimatedCost : Q
}.

(** A chat message is its role and its text. *)
Record SaveSlot : Type := {
  id : string;
  name : string;
  genre : string;
  lastUpdated : Z;
  gameState : value;
  history : list GameHistoryItem;
  chatMessages : list (string * string);
  usageStats : UsageStats
}.

(** The state of the component that the effect reads. *)
Record Component : Type := {
  gameStarted : bool;
  currentGameState : option value;
  currentSaveId : option string;
  currentHistory : list GameHistoryItem;
  currentChatMessages : list (string * string);
  currentUsageStats : UsageStats
}.

(** What [localStorage.setItem] throws. *)
Inductive Exception : Type :=
| DOMException (name : string)
| OtherError (message : string).

(** The entry under STORAGE_KEY, kept as the slots that [JSON.stringify]
    serialised (a stripped [imageUrl: undefined] is left out of the JSON
    text, hence [None]), and the writes that were attempted. *)
Record Store : Type := {
  saved : option (list SaveSlot);
  attempts : list (list SaveSlot)
}.

Inductive Result (A : Type) : Type :=
| Completed (a : A)
| Raised (e : Exception).
Arguments Completed {A} a.
Arguments Raised {A} e.

Definition isQuotaExceeded (error : Exception) : bool :=
  match error with
  | DOMException name => String.eqb name "QuotaExceededError"
  | OtherError _ => false
  end.

(** [{ ...item, imageUrl: undefined }] *)
Definition withoutImage (item : GameHistoryItem) : GameHistoryItem :=
  {| text := text item; choice := choice item; imageUrl := None;
     state := state item |}.

(** [history.map((item, index) => ...)]: the entry at index 0 keeps its
    image. *)
Definition leanHistory (history : list GameHistoryItem)
    : list GameHistoryItem :=
  match history with
  | [] => []
  | latest :: older => latest :: map withoutImage older
  end.

Definition withHistory (s : SaveSlot) (h : list GameHistoryItem)
    : SaveSlot :=
  {| id := id s; name := name s; genre := genre s;
     lastUpdated := lastUpdated s; gameState := gameState s;
     history := h; chatMessages := chatMessages s;
     usageStats := usageStats s |}.

(** [updated.map(s => ({ ...s, history: s.history.map(h => ...) }))] *)
Definition superLeanSaves (updated : list SaveSlot) : list SaveSlot :=
  map (fun s => withHistory s (map withoutImage (history s))) updated.

(** [prevSaves.map(s => ...)]: the slot of the game takes the state of the
    component, with the lean history and the time of the update. *)
Definition updatedSaves (gameState : value) (saveId : string)
    (c : Component) (now : Z) (prevSaves : list SaveSlot)
    : list SaveSlot :=
  map (fun s =>
         if String.eqb (id s) saveId
         then {| id := id s; name := name s; genre := genre s;
                 lastUpdated := now; gameState := gameState;
                 history := leanHistory (currentHistory c);
                 chatMessages := currentChatMessages c;
                 usageStats := currentUsageStats c |}
         else s)
      prevSaves.

Section SaveSync.

(** The storage decides whether the write of a payload fits: [None] when
    [setItem] returns, the exception it throws otherwise. *)
Variable rejects : list SaveSlot -> option Exception.

Definition setItem (slots : list SaveSlot) (st : Store)
    : Result unit * Store :=
  match rejects slots with
  | None =>
      (Completed tt,
       {| saved := Some slots; attempts := attempts st ++ [slots] |})
  | Some error =>
      (Raised error,
       {| saved := saved st; attempts := attempts st ++ [slots] |})
  end.

(** The updater handed to [setSaves]. *)
Definition syncSaves (gameState : value) (saveId : string)
    (c : Component) (now : Z) (prevSaves : list SaveSlot) (st : Store)
    : Result (list SaveSlot) * Store :=
  let updated := updatedSaves gameState saveId c now prevSaves in
  match setItem updated st with
  | (Completed _, st1) => (Completed updated, st1)
  | (Raised error, st1) =>
      if isQuotaExceeded error
      then
        match setItem (superLeanSaves updated) st1 with
        | (Completed _, st2) => (Completed updated, st2)
        | (Raised error2, st2) => (Raised error2, st2)
        end
      else (Completed updated, st1)
  end.

(** The effect: it runs the updater when a game is under way. *)
Definition saveEffect (c : Component) (now : Z)
    (prevSaves : list SaveSlot) (st : Store)
    : Result (list SaveSlot) * Store :=
  match gameStarted c, currentGameState c, currentSaveId c with
  | true, Some gameState, Some saveId =>
      if String.eqb saveId "" then (Completed prevSaves, st)
      else syncSaves gameState saveId c now prevSaves st
  | _, _, _ => (Completed prevSaves, st)
  end.

End SaveSync.

Definition STORAGE_KEY : string := "CHRONICLE_WEAVER_SAVES_V2".

Definition initialUsageStats : UsageStats :=
  {| inputTokens := 0; outputTokens := 0; imageCount := 0;
     premiumImageCount := 0; estimatedCost := 0 |}.

(** The updater that [updateUsage] hands to [setUsageStats]. *)
Definition updateUsage (input output images premiumImages : Q)
    (modelType : GeminiService.ModelType) (prev : UsageStats) : UsageStats :=
  let newCost :=
    GeminiService.calculateEstimatedCost input output images premiumImages
      modelType in
  {| inputTokens := (inputTokens prev + input)%Q;
     outputTokens := (outputTokens prev + output)%Q;
     imageCount := (imageCount prev + images)%Q;
     premiumImageCount := (premiumImageCount prev + premiumImages)%Q;
     estimatedCost := (estimatedCost prev + newCost)%Q |}.

(** The call of [updateUsage] in [updateImage], for an image that came
    with data. *)
Definition updateImageUsage (input output : Q) (useHighRes : bool)
    (prev : UsageStats) : UsageStats :=
  updateUsage input output
    (if useHighRes then 0 else 1)
    (if useHighRes then 1 else 0)
    (if useHighRes then GeminiService.pro else GeminiService.flash)
    prev.

(** The flags that [handleError] sets. *)
Record Indicators : Type := {
  showKeyModal : bool;
  loading : bool;
  imageLoading : bool;
  chatLoading : bool
}.

(** [error instanceof Error && error.message === 'API_KEY_ERROR'] opens the
    key dialog; any other error is logged.  The three loading flags are
    cleared either way. *)
Definition handleError (error : value) (ui : Indicators) : Indicators :=
  {| showKeyModal :=
       match error with
       | VError message =>
           if String.eqb message "API_KEY_ERROR" then true
           else showKeyModal ui
       | _ => showKeyModal ui
       end;
     loading := false;
     imageLoading := false;
     chatLoading := false |}.

(** [loadSave]: the slot becomes the game of the component.  A slot of this
    type has its usage statistics, so [slot.usageStats || initialUsageStats]
    is [slot.usageStats]. *)
Definition loadSave (slot : SaveSlot) : Component :=
  {| gameStarted := true;
     currentGameState := Some (gameState slot);
     currentSaveId := Some (id slot);
     currentHistory := history slot;
     currentChatMessages := chatMessages slot;
     currentUsageStats := usageStats slot |}.

(** The updater that [deleteSave] hands to [setSaves]: the write of the
    remaining slots is not guarded. *)
Definition deleteSaveUpdater
    (rejects : list SaveSlot -> option Exception) (saveId : string)
    (prev : list SaveSlot) (st : Store) : Result (list SaveSlot) * Store :=
  let filtered :=
    List.filter (fun s => negb (String.eqb (id s) saveId)) prev in
  match setItem rejects filtered st with
  | (Completed _, st1) => (Completed filtered, st1)
  | (Raised error, st1) => (Raised error, st1)
  end.

(** The rest of [deleteSave]: the component is reset when its own game was
    deleted. *)
Definition deleteSaveReset (saveId : string) (c : Component) : Component :=
  match currentSaveId c with
  | Some current =>
      if String.eqb current saveId
      then {| gameStarted := false;
              currentGameState := None;
              currentSaveId := None;
              currentHistory := [];
              currentChatMessages := [];
              currentUsageStats := initialUsageStats |}
      else c
  | None => c
  end.

End App.

(** * Reading the claims *)

Import AiService.

(** The price table as the specification reads it: a provider has an elevated
    tier ('pro') and a base tier (any other model type). *)
Definition table_rates (p : string) (modelType : ModelType) : Pricing :=
  let elevated := match modelType with pro => true | _ => false end in
  if String.eqb p "gemini"
  then (if elevated then PRICING.GEMINI_PRO else PRICING.GEMINI_FLASH)
  else if String.eqb p "openai"
  then (if elevated then PRICING.OPENAI_GPT4 else PRICING.OPENAI_GPT3_5)
  else (if elevated then PRICING.CLAUDE_SONNET else PRICING.CLAUDE_HAIKU).

(** A count of tokens or images as the number the function receives. *)
Definition count (n : N) : Q := inject_Z (Z.of_N n).

(** A handler that always throws lets only the results of the body
    through. *)
Definition always_throws {A} (handler : value -> JS A) : Prop :=
  forall e w, exists e' w', handler e w = (Thrown e', w').

(** The seven fields of a narrative state, each with its default. *)
Definition defaults : list (string * value) :=
  [("storyText", VStr "The story begins...");
   ("choices", VArr [VStr "Continue"]);
   ("inventory", VArr []);
   ("currentQuest", VStr "Unknown quest");
   ("visualPrompt", VStr "A mysterious scene");
   ("worldStyle", VStr "fantasy");
   ("genre", VStr "Fantasy")].

Definition is_undefined (v : value) : bool :=
  match v with VUndefined => true | _ => false end.

(** All seven fields are there. *)
Definition populated (gameState : value) : bool :=
  forallb (fun fd => negb (is_undefined (get_opt gameState (fst fd))))
    defaults.

(** The request of the story call of a supported provider. *)
Definition story_request (p apiKey prompt : string) : Request :=
  match switch p with
  | CaseGemini => geminiStoryRequest apiKey prompt
  | CaseOpenAI => openaiStoryRequest apiKey prompt
  | _ => claudeStoryRequest apiKey prompt
  end.

(** Where the reply of OpenAI and of Claude carries the text to parse:
    [choices[0].message.content] and [content[0].text]. *)
Definition reply_content (p : string) (body : value) : value :=
  match switch p with
  | CaseOpenAI =>
      get_opt (get_opt (get_index_opt (get_opt body "choices") 0) "message")
        "content"
  | _ => get_opt (get_index_opt (get_opt body "content") 0) "text"
  end.

(** *** Errors *)

(** The code and the message an error is classified by. *)
Definition error_code (e : value) : value :=
  get_opt e "code" ||| get_opt (get_opt e "error") "code".

Definition error_text (e : value) : value :=
  get_opt e "message" ||| get_opt (get_opt e "error") "message" ||| VStr "".

Definition message_is_text (e : value) : Prop :=
  exists msg, error_text e = VStr msg.

Definition credential_phrases : list string :=
  ["permission"; "not found"; "api_key_invalid"].

(** The rule of each provider for an error that speaks of the credential:
    Gemini goes by the codes 403 and 404 and by the phrases, OpenAI and
    Claude by the status 401. *)
Definition credential_signal (p : string) (e : value) : bool :=
  if String.eqb p AIProvider.GEMINI
  then is_number (error_code e) 403
       || is_number (error_code e) 404
       || match error_text e with
          | VStr msg => existsb (includes (toLowerCase msg)) credential_phrases
          | _ => false
          end
  else is_number (get_opt e "status") 401.

(** The promise of the request rejects with [e]. *)
Definition rejects (host : Host) (req : Request) (e : value) : Prop :=
  match req with
  | Fetch _ _ => http host req = Thrown e
  | _ => sdk host req = Thrown e
  end.

(** Errors of the examples: an object with a numeric field and a message. *)
Definition error_object (field : string) (n : Z) (msg : string) : value :=
  VObj [(field, VNum n); ("message", VStr msg)].

(** *** Images and chat *)


Definition fullPrompt_standard (prompt style : string) : string :=
  "Art Style: " +:+ style +:+ ". Scene: " +:+ prompt
  +:+ ". Cinematic lighting, evocative mood.".

(** The indentation of the directive in the branch of a provider. *)
Definition indent_of (p : string) : string :=
  match switch p with CaseOpenAI => indent16 | _ => indent12 end.

(** The request of the chat call of a supported provider. *)
Definition chat_request (p apiKey directive message : string) : Request :=
  match switch p with
  | CaseGemini => geminiChatRequest apiKey directive message
  | CaseOpenAI => openaiChatRequest apiKey directive message
  | _ => claudeChatRequest apiKey directive message
  end.

(** The directive of a context without an inventory: an empty item list. *)
Definition directive_without_items (indent : string)
    (props : list (string * value)) : string :=
  personaText indent (ToString (assoc "genre" props))
    (ToString (assoc "currentQuest" props)) "".

(** The count a Gemini reply carries under [usageMetadata]: [undefined] when
    the reply has no metadata, or metadata without that count. *)
Definition reply_count (response : value) (name : string) : value :=
  get_opt (prop response "usageMetadata") name.

(** A computation that leaves the world as it found it. *)
Definition steady {A} (m : JS A) : Prop := forall w, snd (m w) = w.

(** *** Sample hosts *)

Definition dquote : string := String "034"%char EmptyString.

(** The text [{"storyText":"X","choices":["Continue"]}]. *)
Definition partial_reply_text : string :=
  "{" +:+ dquote +:+ "storyText" +:+ dquote +:+ ":" +:+ dquote +:+ "X"
  +:+ dquote +:+ "," +:+ dquote +:+ "choices" +:+ dquote +:+ ":["
  +:+ dquote +:+ "Continue" +:+ dquote +:+ "]}".

(** [JSON.parse] on the texts of the examples. *)
Definition sample_JSON_parse (s : string) : Outcome value :=
  if String.eqb s "{}" then Returned (VObj [])
  else if String.eqb s partial_reply_text
  then Returned (VObj [("storyText", VStr "X");
                       ("choices", VArr [VStr "Continue"])])
  else Thrown (VError "Unexpected token in JSON").

(** A host that settles every SDK call and every fetch the same way. *)
Definition sample_host (sdk_reply : Outcome value)
    (http_reply : Outcome Response) : Host :=
  {| JSON_parse := sample_JSON_parse;
     sdk := fun _ => sdk_reply;
     http := fun _ => http_reply |}.

Definition ok_response (body : value) : Response :=
  {| ok := true; status := 200; statusText := "OK";
     json := Returned body; text := Returned "" |}.

Definition error_response (code : Z) (reason body : string) : Response :=
  {| ok := false; status := code; statusText := reason;
     json := Thrown (VError "Unexpected token in JSON");
     text := Returned body |}.

Definition offline : Outcome Response :=
  Thrown (VError "Network error").

Definition empty_world : World := {| localStorage := ∅; network := [] |}.

(** The OpenAI reply [{"storyText":"X","choices":["Continue"]}]. *)
Definition openai_partial_reply : Response :=
  ok_response
    (VObj [("choices",
            VArr [VObj [("message",
                         VObj [("content", VStr partial_reply_text)])]]);
           ("usage",
            VObj [("prompt_tokens", VNum 100);
                  ("completion_tokens", VNum 150)])]).

(** A Gemini chat reply and an OpenAI image reply. *)
Definition gemini_chat_reply : value :=
  VObj [("text", VStr "Hello, brave adventurer!");
        ("usageMetadata",
         VObj [("promptTokenCount", VNum 50);
               ("candidatesTokenCount", VNum 25)])].


Definition gemini_image_reply : value :=
  VObj [("candidates",
         VArr [VObj [("content",
                      VObj [("parts",
                             VArr [VObj [("inlineData",
                                          VObj [("data", VStr "iVBOR")])]])])]]);
        ("usageMetadata",
         VObj [("promptTokenCount", VNum 50);
               ("candidatesTokenCount", VNum 10)])].

(** A game context without an inventory. *)
Definition context_without_inventory : list (string * value) :=
  [("storyText", VStr "A brave knight enters the dark forest.");
   ("currentQuest", VStr "Find the lost artifact");
   ("genre", VStr "High Fantasy")].

(** The game state of the service tests with its inventory overwritten by
    [undefined]: [{ ...mockGameState, inventory: undefined }]. *)
Definition context_with_undefined_inventory : list (string * value) :=
  [("storyText", VStr "A brave knight enters the dark forest.");
   ("choices",
    VArr [VStr "Fight the monster"; VStr "Run away";
          VStr "Search for treasure"]);
   ("inventory", VUndefined);
   ("currentQuest", VStr "Find the lost artifact");
   ("visualPrompt", VStr "A knight standing at the edge of a dark forest");
   ("worldStyle", VStr "medieval fantasy");
   ("genre", VStr "High Fantasy")].

(** A Gemini reply that carries the count of the prompt and no count of the
    candidates. *)
Definition gemini_reply_with_one_count : value :=
  VObj [("text", VStr "{}");
        ("usageMetadata", VObj [("promptTokenCount", VNum 100)])].

(** *** A session to save *)

Definition no_usage : App.UsageStats :=
  {| App.inputTokens := 0; App.outputTokens := 0; App.imageCount := 0;
     App.premiumImageCount := 0; App.estimatedCost := 0 |}.

Definition scene (n : string) (image : option string)
    : App.GameHistoryItem :=
  {| App.text := "Scene " +:+ n; App.choice := "Continue";
     App.imageUrl := image; App.state := None |}.

Definition slot (name : string) (entries : list App.GameHistoryItem)
    : App.SaveSlot :=
  {| App.id := name; App.name := name; App.genre := "Fantasy";
     App.lastUpdated := 0; App.gameState := VObj [];
     App.history := entries; App.chatMessages := [];
     App.usageStats := no_usage |}.

(** The game of slot-1 is under way, with two scenes in its history. *)
Definition playing : App.Component :=
  {| App.gameStarted := true;
     App.currentGameState := Some (VObj []);
     App.currentSaveId := Some "slot-1";
     App.currentHistory :=
       [scene "2" (Some "data:image/png;base64,BBBB");
        scene "1" (Some "data:image/png;base64,AAAA")];
     App.currentChatMessages := [];
     App.currentUsageStats := no_usage |}.

Definition saves : list App.SaveSlot :=
  [slot "slot-1" [];
   slot "slot-2" [scene "0" (Some "data:image/png;base64,CCCC")]].

Definition QuotaExceededError : App.Exception :=
  App.DOMException "QuotaExceededError".

(** A storage with no room left: every write is over the quota. *)
Definition full_storage (payload : list App.SaveSlot)
    : option App.Exception :=
  Some QuotaExceededError.

(** A storage with room for a payload without images only. *)
Definition tight_storage (payload : list App.SaveSlot)
    : option App.Exception :=
  if forallb
       (fun s =>
          forallb
            (fun h => match App.imageUrl h with None => true | _ => false end)
            (App.history s))
       payload
  then None
  else Some QuotaExceededError.

Definition empty_store : App.Store :=
  {| App.saved := None; App.attempts := [] |}.

(** *** Coverage of the service and of the App *)

(** A computation that leaves the storage as it is and issues at most one
    request. *)
Definition at_most_one_request {A} (m : JS A) : Prop :=
  forall w,
    localStorage (snd (m w)) = localStorage w
    /\ exists sent,
         network (snd (m w)) = (network w ++ sent)%list
         /\ (length sent <= 1)%nat.

(** The name a provider bears in the errors of its adapter. *)
Definition provider_label (p : string) : string :=
  match switch p with
  | CaseOpenAI => "OpenAI"
  | _ => "Claude"
  end.

(** The fields of an entry of the history other than its image. *)
Definition narrative (h : App.GameHistoryItem)
    : string * string * option value :=
  (App.text h, App.choice h, App.state h).

(** The fields of a slot other than its history. *)
Definition slot_header (s : App.SaveSlot)
    : string * string * string * Z * value * list (string * string) :=
  (App.id s, App.name s, App.genre s, App.lastUpdated s, App.gameState s,
   App.chatMessages s).

(** The usage events of a session, each what one call of [updateUsage]
    receives: input, output, images, premium images. *)
Definition usage_event : Type := Q * Q * Q * Q.

Definition apply_event (modelType : GeminiService.ModelType)
    (prev : App.UsageStats) (ev : usage_event) : App.UsageStats :=
  match ev with
  | (input, output, images, premium) =>
      App.updateUsage input output images premium modelType prev
  end.

Definition add_events (a b : usage_event) : usage_event :=
  match a, b with
  | (i, o, m, k), (i', o', m', k') =>
      ((i + i')%Q, (o + o')%Q, (m + m')%Q, (k + k')%Q)
  end.

Definition event_total (evs : list usage_event) : usage_event :=
  fold_right add_events (0%Q, 0%Q, 0%Q, 0%Q) evs.

(** The statistics after the events, one call of [updateUsage] after the
    other. *)
Definition after_events (modelType : GeminiService.ModelType)
    (evs : list usage_event) (prev : App.UsageStats) : App.UsageStats :=
  fold_left (apply_event modelType) evs prev.

(** The cost of the events taken together. *)
Definition cost_of_events (modelType : GeminiService.ModelType)
    (evs : list usage_event) : Q :=
  match event_total evs with
  | (i, o, m, k) => GeminiService.calculateEstimatedCost i o m k modelType
  end.

(** Field by field, up to the equality of the rationals. *)
Definition same_usage (a b : App.UsageStats) : Prop :=
  (App.inputTokens a == App.inputTokens b
   /\ App.outputTokens a == App.outputTokens b
   /\ App.imageCount a == App.imageCount b
   /\ App.premiumImageCount a == App.premiumImageCount b
   /\ App.estimatedCost a == App.estimatedCost b)%Q.


(** The statistics with the events added in one go. *)
Definition plus_events (modelType : GeminiService.ModelType)
    (evs : list usage_event) (prev : App.UsageStats) : App.UsageStats :=
  match event_total evs with
  | (i, o, m, k) =>
      {| App.inputTokens := (App.inputTokens prev + i)%Q;
         App.outputTokens := (App.outputTokens prev + o)%Q;
         App.imageCount := (App.imageCount prev + m)%Q;
         App.premiumImageCount := (App.premiumImageCount prev + k)%Q;
         App.estimatedCost :=
           (App.estimatedCost prev + cost_of_events modelType evs)%Q |}
  end.

(** The component as [deleteSave] and [loadSave] leave it. *)
Definition idle_component : App.Component :=
  {| App.gameStarted := false;
     App.currentGameState := None;
     App.currentSaveId := None;
     App.currentHistory := [];
     App.currentChatMessages := [];
     App.currentUsageStats := App.initialUsageStats |}.

(** The slot of the running game after the sync. *)
Definition synced_component (gameState : value) (saveId : string)
    (c : App.Component) : App.Component :=
  {| App.gameStarted := true;
     App.currentGameState := Some gameState;
     App.currentSaveId := Some saveId;
     App.currentHistory := App.leanHistory (App.currentHistory c);
     App.currentChatMessages := App.currentChatMessages c;
     App.currentUsageStats := App.currentUsageStats c |}.

Definition no_flags : App.Indicators :=
  {| App.showKeyModal := false; App.loading := true;
     App.imageLoading := true; App.chatLoading := true |}.


(** * Properties *)

Example includes_sample :
  includes (toLowerCase "API key NOT FOUND.") "not found" = true
  /\ includes "forbidden" "permission" = false
  /\ ToString (VArr [VNum (-12); VNull; VStr "a"]) = "-12,,a"
  /\ join ", " [] = "".
Proof. repeat split; reflexivity. Qed.

(** ** The switch over the provider *)

Lemma switch_supported (p : string) :
  In p AIProvider.values ->
  (p = AIProvider.GEMINI /\ switch p = CaseGemini)
  \/ (p = AIProvider.OPENAI /\ switch p = CaseOpenAI)
  \/ (p = AIProvider.CLAUDE /\ switch p = CaseClaude).
Proof.
  intros [<- | [<- | [<- | []]]]; [left | right; left | right; right];
    split; reflexivity.
Qed.

Lemma switch_default (p : string) :
  ~ In p AIProvider.values -> switch p = CaseDefault.
Proof.
  intros Hout. unfold switch.
  destruct (String.eqb_spec p AIProvider.GEMINI) as [-> | _].
  { exfalso. apply Hout. simpl. auto. }
  destruct (String.eqb_spec p AIProvider.OPENAI) as [-> | _].
  { exfalso. apply Hout. simpl. auto. }
  destruct (String.eqb_spec p AIProvider.CLAUDE) as [-> | _].
  { exfalso. apply Hout. simpl. auto. }
  reflexivity.
Qed.

(** ** The cost accountant *)

(** C4: for every supported provider and tier and all counts, the estimated
    cost is inputTokens*inputRate + outputTokens*outputRate +
    imageCount*imageRate + premiumImageCount*imageRate with the rates of the
    price table, premium images at the image rate of the tier; the cost of
    all-zero counts is 0. *)
Theorem cost_is_the_rate_formula
    (p : string) (modelType : ModelType) (i o m k : N) :
  In p AIProvider.values ->
  (calculateEstimatedCost (count i) (count o) (count m) (count k) p modelType
   == count i * input (table_rates p modelType)
      + count o * output (table_rates p modelType)
      + count m * image (table_rates p modelType)
      + count k * image (table_rates p modelType))%Q
  /\ (calculateEstimatedCost (count 0) (count 0) (count 0) (count 0)
        p modelType == 0)%Q.
Proof.
  intros Hp.
  destruct (switch_supported p Hp) as [[-> Hs] | [[-> Hs] | [-> Hs]]];
    unfold calculateEstimatedCost; rewrite Hs;
    destruct modelType;
    cbv beta iota zeta delta [table_rates is_pro String.eqb Ascii.eqb
                              Bool.eqb AIProvider.GEMINI AIProvider.OPENAI
                              AIProvider.CLAUDE];
    (split;
     [ generalize (count i) (count o) (count m) (count k); intros; ring
     | unfold count; simpl Z.of_N; ring ]).
Qed.

Lemma cost_is_the_rate_formula_witness :
  In "openai" AIProvider.values
  /\ (calculateEstimatedCost (count 1000) (count 500) (count 2) (count 1)
        "openai" standard
      == 1000 * (0.5 / 1000000) + 500 * (1.5 / 1000000)
         + 2 * 0.02 + 1 * 0.02)%Q.
Proof.
  split.
  - simpl. auto.
  - pose proof (cost_is_the_rate_formula "openai" standard 1000 500 2 1) as H.
    destruct H as [H _].
    + simpl. auto.
    + rewrite H. reflexivity.
Defined.

(** C7: a provider identifier outside the supported set is priced, whatever
    the model type, with the Gemini flash rates. *)
Theorem cost_of_unknown_provider
    (p : string) (modelType : ModelType) (i o m k : Q) :
  ~ In p AIProvider.values ->
  calculateEstimatedCost i o m k p modelType
  = (i * input PRICING.GEMINI_FLASH + o * output PRICING.GEMINI_FLASH
     + (m * image PRICING.GEMINI_FLASH + k * image PRICING.GEMINI_FLASH))%Q
  /\ calculateEstimatedCost i o m k p modelType
     = calculateEstimatedCost i o m k AIProvider.GEMINI flash.
Proof.
  intros Hout. unfold calculateEstimatedCost.
  rewrite (switch_default p Hout). split; reflexivity.
Qed.

Lemma cost_of_unknown_provider_witness :
  ~ In "UNKNOWN" AIProvider.values
  /\ (calculateEstimatedCost (count 1000) (count 500) (count 1) (count 0)
        "UNKNOWN" pro
      == 1000 * (0.1 / 1000000) + 500 * (0.4 / 1000000) + 1 * 0.0008)%Q.
Proof.
  assert (Hout : ~ In "UNKNOWN" AIProvider.values).
  { simpl. intros [H | [H | [H | []]]]; discriminate H. }
  split.
  - exact Hout.
  - destruct (cost_of_unknown_provider "UNKNOWN" pro (count 1000)
                (count 500) (count 1) (count 0) Hout) as [H _].
    rewrite H. reflexivity.
Defined.

(** The single-provider service prices a premium image apart, at the rate
    of the pro model. *)
Example gemini_service_prices_premium_apart :
  (GeminiService.calculateEstimatedCost 0 0 1 1 GeminiService.flash
   == 0.0008 + 0.04)%Q.
Proof. reflexivity. Qed.

(** ** The credential store *)

Lemma lookup_after_clearAll (p : string) (st : gmap string string) :
  In p AIProvider.values ->
  clearAllApiKeys st !! (API_KEY_STORAGE_PREFIX +:+ p) = None.
Proof.
  intros Hp. unfold clearAllApiKeys. simpl fold_left.
  destruct Hp as [<- | [<- | [<- | []]]];
    repeat first [ apply lookup_delete_eq
                 | rewrite lookup_delete_ne by discriminate ].
Qed.

(** C9: after [set(p, s)] with a non-empty secret, [get(p)] is [s] and
    [has(p)] holds; after [set(p, "")], [get(p)] is the empty string and
    [has(p)] fails; [get(p)] without a stored entry is the empty string;
    after [clearAll()], [has(p)] fails for every supported provider. *)
Theorem credential_store_contract
    (p s : string) (st : gmap string string) :
  (s <> "" ->
   getStoredApiKey p (setStoredApiKey p s st) = s
   /\ hasApiKey p (setStoredApiKey p s st) = true)
  /\ (getStoredApiKey p (setStoredApiKey p "" st) = ""
      /\ hasApiKey p (setStoredApiKey p "" st) = false)
  /\ (st !! (API_KEY_STORAGE_PREFIX +:+ p) = None ->
      getStoredApiKey p st = "")
  /\ (In p AIProvider.values -> hasApiKey p (clearAllApiKeys st) = false).
Proof.
  split; [| split; [| split]].
  - intros Hs. pose proof Hs as Hne. apply String.eqb_neq in Hs.
    unfold hasApiKey, getStoredApiKey, setStoredApiKey.
    rewrite Hs. cbn [negb]. rewrite lookup_insert_eq, Hs.
    split; [reflexivity |].
    destruct s; [congruence | reflexivity].
  - unfold hasApiKey, getStoredApiKey, setStoredApiKey. simpl.
    now rewrite lookup_delete_eq.
  - intros Hnone. unfold getStoredApiKey. now rewrite Hnone.
  - intros Hp. unfold hasApiKey, getStoredApiKey.
    now rewrite (lookup_after_clearAll p st Hp).
Qed.

Lemma credential_store_contract_witness :
  "sk-test" <> ""
  /\ getStoredApiKey "openai" (setStoredApiKey "openai" "sk-test" ∅)
     = "sk-test"
  /\ hasApiKey "openai" (setStoredApiKey "openai" "sk-test" ∅) = true
  /\ getStoredApiKey "openai" (∅ : gmap string string) = ""
  /\ hasApiKey "openai"
       (clearAllApiKeys (setStoredApiKey "openai" "sk-test" ∅)) = false.
Proof.
  assert (Hs : "sk-test" <> "") by discriminate.
  split; [exact Hs |].
  destruct (credential_store_contract "openai" "sk-test" ∅)
    as (Hset & _ & Habsent & _).
  destruct (Hset Hs) as [Hget Hhas].
  destruct (credential_store_contract "openai" "sk-test"
              (setStoredApiKey "openai" "sk-test" ∅))
    as (_ & _ & _ & Hclear).
  split; [exact Hget |].
  split; [exact Hhas |].
  split.
  - apply Habsent. apply lookup_empty.
  - apply Hclear. simpl. auto.
Defined.

(** ** Running a computation *)

Lemma bind_returned {A B} (m : JS A) (k : A -> JS B) w b w' :
  bind m k w = (Returned b, w') ->
  exists a w1, m w = (Returned a, w1) /\ k a w1 = (Returned b, w').
Proof.
  unfold bind. destruct (m w) as [[a | e] w1]; intros H.
  - eauto.
  - discriminate H.
Qed.

Lemma lift_returned {A} (o : Outcome A) w a w' :
  lift o w = (Returned a, w') -> o = Returned a /\ w' = w.
Proof. unfold lift. intros H. inversion H. auto. Qed.

Lemma send_returned {A} (reply : Request -> Outcome A) r w a w' :
  send reply r w = (Returned a, w') ->
  reply r = Returned a
  /\ w' = {| localStorage := localStorage w; network := network w ++ [r] |}.
Proof. unfold send. intros H. inversion H. auto. Qed.

Lemma read_storage_returned {A} (f : gmap string string -> A) w a w' :
  read_storage f w = (Returned a, w') -> a = f (localStorage w) /\ w' = w.
Proof. unfold read_storage. intros H. inversion H. auto. Qed.

Lemma ret_returned {A} (x : A) w a w' :
  ret x w = (Returned a, w') -> a = x /\ w' = w.
Proof. unfold ret. intros H. inversion H. auto. Qed.

Lemma get_returned (v : value) (k : string) (x : value) :
  get v k = Returned x -> nullish v = false /\ x = prop v k.
Proof.
  unfold get. destruct (nullish v); intros H; inversion H. auto.
Qed.

Lemma get_index_returned (v : value) (i : nat) (x : value) :
  get_index v i = Returned x -> nullish v = false /\ x = item v i.
Proof.
  unfold get_index. destruct (nullish v); intros H; inversion H. auto.
Qed.

Lemma try_catch_returned {A} (body : JS A) (handler : value -> JS A)
    w a w' :
  always_throws handler ->
  try_catch body handler w = (Returned a, w') ->
  body w = (Returned a, w').
Proof.
  intros Hh. unfold try_catch. destruct (body w) as [[x | e] w1].
  - auto.
  - destruct (Hh e w1) as (e' & w2 & ->). discriminate.
Qed.

Lemma handleOpenAIError_throws {A} : always_throws (@handleOpenAIError A).
Proof.
  intros e w. unfold handleOpenAIError.
  destruct (is_number _ _); unfold throw; eauto.
Qed.

Lemma handleClaudeError_throws {A} : always_throws (@handleClaudeError A).
Proof.
  intros e w. unfold handleClaudeError.
  destruct (is_number _ _); unfold throw; eauto.
Qed.

Lemma handleGeminiError_throws {A} : always_throws (@handleGeminiError A).
Proof.
  intros e w. unfold handleGeminiError, bind, lift.
  destruct (call_toLowerCase _) as [msg | e1]; [| eauto].
  destruct (_ || _); unfold throw; eauto.
Qed.

Lemma classify_throws {A} (p : string) : always_throws (@classify A p).
Proof.
  unfold classify. destruct (switch p).
  - apply handleGeminiError_throws.
  - apply handleOpenAIError_throws.
  - apply handleClaudeError_throws.
  - intros e w. unfold throw. eauto.
Qed.

Lemma throw_not_returned {A} (e : value) w (a : A) w' :
  throw e w = (Returned a, w') -> False.
Proof. unfold throw. discriminate. Qed.

Lemma inner_try_returned {A} (body : JS A) (e : value) w a w' :
  try_catch body (fun _ => throw e) w = (Returned a, w') ->
  body w = (Returned a, w').
Proof.
  apply try_catch_returned. intros ? ?. unfold throw. eauto.
Qed.

(** Inverting a run that returned, one statement at a time. *)
Ltac returned H :=
  repeat
    match type of H with
    | bind _ _ _ = (Returned _, _) =>
        let a := fresh "x" in
        let w := fresh "w" in
        let Hm := fresh "Hstep" in
        apply bind_returned in H as (a & w & Hm & H);
        lazymatch type of Hm with
        | getProviderKey _ _ = _ =>
            apply read_storage_returned in Hm as [-> ->]
        | send _ _ _ = _ => apply send_returned in Hm as [Hm ->]
        | lift _ _ = _ => apply lift_returned in Hm as [Hm ->]
        | _ => idtac
        end
    | ret _ _ = (Returned _, _) =>
        apply ret_returned in H as [-> ->]
    | (if negb (ok ?r) then _ else _) _ = (Returned _, _) =>
        let Hok := fresh "Hok" in
        destruct (ok r) eqn:Hok; cbn [negb] in H;
        [| first
             [ now apply throw_not_returned in H
             | apply bind_returned in H as (? & ? & _ & H);
               now apply throw_not_returned in H ] ]
    end.

(** The reads of a run that returned did not meet [undefined] or [null]. *)
Ltac reads :=
  repeat match goal with
         | Hg : get _ _ = Returned _ |- _ =>
             apply get_returned in Hg as [? ->]
         | Hg : get_index _ _ = Returned _ |- _ =>
             apply get_index_returned in Hg as [? ->]
         end.

(** ** The text-only provider *)

(** C5: with the Claude provider the image call returns [undefined] with a
    zeroed usage, whatever the prompt, the style and the quality, and leaves
    the world as it was: no request is issued. *)
Theorem claude_image_is_undefined_and_offline
    (host : Host) (prompt style : string) (quality : Quality) (w : World) :
  generateImage host prompt style AIProvider.CLAUDE quality w
  = (Returned {| data := VUndefined;
                 usage := {| inputTokens := VNum 0;
                             outputTokens := VNum 0;
                             isPremium := None;
                             provider := AIProvider.CLAUDE |} |},
     w)
  /\ network
       (snd (generateImage host prompt style AIProvider.CLAUDE quality w))
     = network w.
Proof. split; reflexivity. Qed.

(** ** Story beats *)

Lemma or_else_defined (x d : value) :
  is_undefined d = false -> is_undefined (x ||| d) = false.
Proof.
  intros Hd. unfold or_else. destruct (truthy x) eqn:Hx; [| exact Hd].
  destruct x; try reflexivity; discriminate Hx.
Qed.

Lemma withDefaults_returned (parsed : value) w gameState w' :
  withDefaults parsed w = (Returned gameState, w') ->
  w' = w
  /\ gameState
     = VObj (map (fun fd => (fst fd, prop parsed (fst fd) ||| snd fd))
               defaults).
Proof.
  intros H. unfold withDefaults in H. returned H.
  repeat match goal with
         | Hg : get _ _ = Returned _ |- _ =>
             apply get_returned in Hg as [_ ->]
         end.
  split; reflexivity.
Qed.
Lemma populated_with_defaults (parsed : value) :
  populated
    (VObj (map (fun fd => (fst fd, prop parsed (fst fd) ||| snd fd))
             defaults)) = true.
Proof.
  unfold populated, defaults. cbn [map forallb fst snd].
  cbv beta iota delta [get_opt nullish].
  cbn [prop assoc String.eqb Ascii.eqb Bool.eqb].
  rewrite !or_else_defined by reflexivity. reflexivity.
Qed.

Lemma omitted_field_gets_default (parsed : value) (f : string) (d : value) :
  In (f, d) defaults ->
  prop parsed f = VUndefined ->
  prop (VObj (map (fun fd => (fst fd, prop parsed (fst fd) ||| snd fd))
                defaults)) f = d.
Proof.
  intros Hin Hf. unfold defaults in *. cbn [map fst snd prop].
  repeat destruct Hin as [Hin | Hin]; try contradiction;
    inversion Hin; subst f d; cbn [assoc String.eqb Ascii.eqb Bool.eqb];
    rewrite Hf; reflexivity.
Qed.

Lemma kept_field (parsed : value) (f : string) (d : value) :
  In (f, d) defaults ->
  truthy (prop parsed f) = true ->
  prop (VObj (map (fun fd => (fst fd, prop parsed (fst fd) ||| snd fd))
                defaults)) f = prop parsed f.
Proof.
  intros Hin Hf. unfold defaults in *. cbn [map fst snd prop].
  repeat destruct Hin as [Hin | Hin]; try contradiction;
    inversion Hin; subst f d; cbn [assoc String.eqb Ascii.eqb Bool.eqb];
    unfold or_else; rewrite Hf; reflexivity.
Qed.

Lemma openai_story_returned (host : Host) (prompt : string) w r w' :
  openaiGenerateStory host prompt w = (Returned r, w') ->
  exists response body parsed,
    http host (openaiStoryRequest
                 (getStoredApiKey AIProvider.OPENAI (localStorage w)) prompt)
    = Returned response
    /\ ok response = true
    /\ json response = Returned body
    /\ JSON_parse host (ToString (reply_content AIProvider.OPENAI body))
       = Returned parsed
    /\ data r
       = VObj (map (fun fd => (fst fd, prop parsed (fst fd) ||| snd fd))
                 defaults)
    /\ provider (usage r) = AIProvider.OPENAI
    /\ isPremium (usage r) = None.
Proof.
  intros H. unfold openaiGenerateStory, getProviderKey in H.
  apply bind_returned in H as (apiKey & w1 & Hkey & H).
  apply read_storage_returned in Hkey as [-> ->].
  apply bind_returned in H as (response & w2 & Hsend & H).
  apply send_returned in Hsend as [Hsend ->].
  destruct (ok response) eqn:Hok; cbn [negb] in H;
    [| now apply throw_not_returned in H].
  apply bind_returned in H as (body & w3 & Hjson & H).
  apply lift_returned in Hjson as [Hjson ->].
  apply bind_returned in H as (gameState & w4 & Htry & H).
  apply inner_try_returned in Htry.
  returned Htry. returned H.
  apply withDefaults_returned in Htry as [-> ->].
  reads.
  exists response, body. eexists.
  repeat split; try eassumption; try reflexivity.
  match goal with Hp : JSON_parse _ _ = _ |- _ => rewrite <- Hp end.
  unfold reply_content, get_opt, get_index_opt. cbn [switch].
  repeat match goal with
         | Hn : nullish _ = false |- _ => rewrite Hn; clear Hn
         end.
  reflexivity.
Qed.

Lemma claude_story_returned (host : Host) (prompt : string) w r w' :
  claudeGenerateStory host prompt w = (Returned r, w') ->
  exists response body parsed,
    http host (claudeStoryRequest
                 (getStoredApiKey AIProvider.CLAUDE (localStorage w)) prompt)
    = Returned response
    /\ ok response = true
    /\ json response = Returned body
    /\ JSON_parse host (ToString (reply_content AIProvider.CLAUDE body))
       = Returned parsed
    /\ data r
       = VObj (map (fun fd => (fst fd, prop parsed (fst fd) ||| snd fd))
                 defaults)
    /\ provider (usage r) = AIProvider.CLAUDE
    /\ isPremium (usage r) = None.
Proof.
  intros H. unfold claudeGenerateStory, getProviderKey in H.
  apply bind_returned in H as (apiKey & w1 & Hkey & H).
  apply read_storage_returned in Hkey as [-> ->].
  apply bind_returned in H as (response & w2 & Hsend & H).
  apply send_returned in Hsend as [Hsend ->].
  destruct (ok response) eqn:Hok; cbn [negb] in H;
    [| now apply throw_not_returned in H].
  apply bind_returned in H as (body & w3 & Hjson & H).
  apply lift_returned in Hjson as [Hjson ->].
  apply bind_returned in H as (gameState & w4 & Htry & H).
  apply inner_try_returned in Htry.
  returned Htry. returned H.
  apply withDefaults_returned in Htry as [-> ->].
  reads.
  exists response, body. eexists.
  repeat split; try eassumption; try reflexivity.
  match goal with Hp : JSON_parse _ _ = _ |- _ => rewrite <- Hp end.
  unfold reply_content, get_opt, get_index_opt. cbn [switch].
  repeat match goal with
         | Hn : nullish _ = false |- _ => rewrite Hn; clear Hn
         end.
  reflexivity.
Qed.

Lemma gemini_story_returned (host : Host) (prompt : string) w r w' :
  geminiGenerateStory host prompt w = (Returned r, w') ->
  exists response parsed,
    sdk host (geminiStoryRequest
                (getStoredApiKey AIProvider.GEMINI (localStorage w)) prompt)
    = Returned response
    /\ JSON_parse host (ToString (get_opt response "text" ||| VStr "{}"))
       = Returned parsed
    /\ data r = parsed
    /\ provider (usage r) = AIProvider.GEMINI
    /\ isPremium (usage r) = None.
Proof.
  intros H. unfold geminiGenerateStory in H.
  returned H. reads.
  do 2 eexists. repeat split; try eassumption; try reflexivity.
  cbn [data].
  match goal with Hp : JSON_parse _ _ = _ |- _ => rewrite <- Hp end.
  unfold get_opt.
  repeat match goal with
         | Hn : nullish _ = false |- _ => rewrite Hn; clear Hn
         end.
  reflexivity.
Qed.

(** C1 as it stands fails for Gemini: a Gemini reply is handed on as it was
    parsed, and the fields it omits stay out.  Here the reply is [{"storyText":"X","choices":["Continue"]}], and
    then the empty object. *)
Lemma gemini_story_keeps_omissions :
  fst (generateStoryBeat
         (sample_host (Returned (VObj [("text", VStr partial_reply_text)]))
            offline)
         "Begin" AIProvider.GEMINI empty_world)
  = Returned {| data := VObj [("storyText", VStr "X");
                              ("choices", VArr [VStr "Continue"])];
                usage := {| inputTokens := VNum 0;
                            outputTokens := VNum 0;
                            isPremium := None;
                            provider := AIProvider.GEMINI |} |}
  /\ populated (VObj [("storyText", VStr "X");
                      ("choices", VArr [VStr "Continue"])]) = false
  /\ get_opt (VObj [("storyText", VStr "X");
                    ("choices", VArr [VStr "Continue"])]) "genre"
     = VUndefined
  /\ fst (generateStoryBeat
            (sample_host (Returned (VObj [])) offline)
            "Begin" AIProvider.GEMINI empty_world)
     = Returned {| data := VObj [];
                   usage := {| inputTokens := VNum 0;
                               outputTokens := VNum 0;
                               isPremium := None;
                               provider := AIProvider.GEMINI |} |}
  /\ populated (VObj []) = false.
Proof. repeat split; vm_compute; reflexivity. Qed.

(** C1, amended: a story call of OpenAI or Claude that returns carries all
    seven fields, each field that the parsed reply omits replaced by its own
    default and each truthy field kept; a story call of Gemini that returns
    carries the parsed reply as it is. *)
Theorem story_fields_by_provider
    (host : Host) (prompt p : string) (w : World)
    (r : ServiceResponse) (w' : World) :
  generateStoryBeat host prompt p w = (Returned r, w') ->
  (p = AIProvider.OPENAI \/ p = AIProvider.CLAUDE ->
   exists response body parsed,
     http host (story_request p (getStoredApiKey p (localStorage w)) prompt)
     = Returned response
     /\ json response = Returned body
     /\ JSON_parse host (ToString (reply_content p body)) = Returned parsed
     /\ data r
        = VObj (map (fun fd => (fst fd, prop parsed (fst fd) ||| snd fd))
                  defaults)
     /\ populated (data r) = true
     /\ (forall f d, In (f, d) defaults ->
                     prop parsed f = VUndefined -> prop (data r) f = d)
     /\ (forall f d, In (f, d) defaults ->
                     truthy (prop parsed f) = true ->
                     prop (data r) f = prop parsed f))
  /\ (p = AIProvider.GEMINI ->
      exists response parsed,
        sdk host
          (story_request p (getStoredApiKey p (localStorage w)) prompt)
        = Returned response
        /\ JSON_parse host (ToString (get_opt response "text" ||| VStr "{}"))
           = Returned parsed
        /\ data r = parsed).
Proof.
  intros Hrun. unfold generateStoryBeat in Hrun.
  apply try_catch_returned in Hrun; [| apply classify_throws].
  split.
  - intros [-> | ->]; cbn [switch] in Hrun.
    + change (switch AIProvider.OPENAI) with CaseOpenAI in Hrun.
      apply openai_story_returned in Hrun
        as (response & body & parsed & Hreq & _ & Hjson & Hparse & Hdata & _).
      exists response, body, parsed. rewrite Hdata.
      repeat split; try assumption.
      * apply populated_with_defaults.
      * intros f d. apply omitted_field_gets_default.
      * intros f d. apply kept_field.
    + change (switch AIProvider.CLAUDE) with CaseClaude in Hrun.
      apply claude_story_returned in Hrun
        as (response & body & parsed & Hreq & _ & Hjson & Hparse & Hdata & _).
      exists response, body, parsed. rewrite Hdata.
      repeat split; try assumption.
      * apply populated_with_defaults.
      * intros f d. apply omitted_field_gets_default.
      * intros f d. apply kept_field.
  - intros ->.
    change (switch AIProvider.GEMINI) with CaseGemini in Hrun.
    apply gemini_story_returned in Hrun
      as (response & parsed & Hreq & Hparse & Hdata & _).
    exists response, parsed. auto.
Qed.

Lemma story_fields_by_provider_witness :
  exists r w',
    generateStoryBeat
      (sample_host (Thrown VUndefined) (Returned openai_partial_reply))
      "Begin" AIProvider.OPENAI empty_world
    = (Returned r, w')
    /\ populated (data r) = true.
Proof.
  eexists. eexists. split.
  - vm_compute. reflexivity.
  - match goal with
    | |- populated (data ?r) = true =>
        destruct
          (story_fields_by_provider
             (sample_host (Thrown VUndefined) (Returned openai_partial_reply))
             "Begin" AIProvider.OPENAI empty_world r
             {| localStorage := ∅;
                network := [openaiStoryRequest "" "Begin"] |})
          as [Hopenai _]
    end.
    + vm_compute. reflexivity.
    + destruct (Hopenai (or_introl eq_refl))
        as (_ & _ & _ & _ & _ & _ & _ & Hall & _).
      exact Hall.
Defined.

(** The scenario of the tests: the partial OpenAI reply is completed with
    the defaults. *)
Example openai_partial_reply_completed :
  fst (generateStoryBeat
         (sample_host (Thrown VUndefined) (Returned openai_partial_reply))
         "Begin" AIProvider.OPENAI empty_world)
  = Returned {| data := VObj [("storyText", VStr "X");
                              ("choices", VArr [VStr "Continue"]);
                              ("inventory", VArr []);
                              ("currentQuest", VStr "Unknown quest");
                              ("visualPrompt", VStr "A mysterious scene");
                              ("worldStyle", VStr "fantasy");
                              ("genre", VStr "Fantasy")];
                usage := {| inputTokens := VNum 100;
                            outputTokens := VNum 150;
                            isPremium := None;
                            provider := AIProvider.OPENAI |} |}.
Proof. vm_compute. reflexivity. Qed.

(** ** The classification of failures *)

(** C2 as it stands fails: Gemini does not go by the code 401, OpenAI
    does not go by the code 403 nor by the phrases, and an HTTP 401 reply of
    OpenAI is raised as the error of the adapter. *)
Lemma credential_failures_not_classified :
  fst (generateStoryBeat
         (sample_host (Thrown (error_object "code" 401 "Unauthorized"))
            offline)
         "Begin" AIProvider.GEMINI empty_world)
  = Thrown (error_object "code" 401 "Unauthorized")
  /\ fst (generateStoryBeat
            (sample_host (Thrown VUndefined)
               (Thrown (error_object "status" 403 "permission denied")))
            "Begin" AIProvider.OPENAI empty_world)
     = Thrown (error_object "status" 403 "permission denied")
  /\ fst (generateStoryBeat
            (sample_host (Thrown VUndefined)
               (Returned (error_response 401 "Unauthorized" "")))
            "Begin" AIProvider.OPENAI empty_world)
     = Thrown (Error "OpenAI API error: Unauthorized")
  /\ error_object "code" 401 "Unauthorized" <> API_KEY_ERROR
  /\ error_object "status" 403 "permission denied" <> API_KEY_ERROR
  /\ Error "OpenAI API error: Unauthorized" <> API_KEY_ERROR.
Proof.
  repeat split; try (vm_compute; reflexivity); discriminate.
Qed.

Lemma includes_phrases (text : string) :
  includes text "permission" || includes text "not found"
  || includes text "api_key_invalid"
  = existsb (includes text) credential_phrases.
Proof.
  unfold credential_phrases. cbn [existsb].
  now rewrite orb_false_r, orb_assoc.
Qed.

Lemma handleGeminiError_rule {A} (e : value) (w : World) :
  message_is_text e ->
  @handleGeminiError A e w
  = (Thrown (if credential_signal AIProvider.GEMINI e
             then API_KEY_ERROR else e), w).
Proof.
  intros [msg Hmsg]. unfold handleGeminiError, bind, lift.
  fold (error_text e). fold (error_code e). rewrite Hmsg.
  cbn [call_toLowerCase].
  unfold credential_signal.
  change (String.eqb AIProvider.GEMINI AIProvider.GEMINI) with true.
  cbv iota. rewrite Hmsg, <- includes_phrases, !orb_assoc.
  destruct (_ || _); reflexivity.
Qed.

Lemma handleOpenAIError_rule {A} (e : value) (w : World) :
  @handleOpenAIError A e w
  = (Thrown (if credential_signal AIProvider.OPENAI e
             then API_KEY_ERROR else e), w).
Proof.
  unfold handleOpenAIError, credential_signal.
  change (String.eqb AIProvider.OPENAI AIProvider.GEMINI) with false.
  cbv iota. destruct (is_number _ _); reflexivity.
Qed.

Lemma handleClaudeError_rule {A} (e : value) (w : World) :
  @handleClaudeError A e w
  = (Thrown (if credential_signal AIProvider.CLAUDE e
             then API_KEY_ERROR else e), w).
Proof.
  unfold handleClaudeError, credential_signal.
  change (String.eqb AIProvider.CLAUDE AIProvider.GEMINI) with false.
  cbv iota. destruct (is_number _ _); reflexivity.
Qed.

(** C2, amended: the facade classifies the error the upstream call rejected
    with by the rule of the provider.  Gemini: API_KEY_ERROR for the codes
    403 and 404 and for a message that contains "permission", "not found" or
    "api_key_invalid" in any case of the letters; OpenAI and Claude:
    API_KEY_ERROR for the status 401.  Any other rejection is raised again as
    it is. *)
Theorem facade_classifies_rejections
    (host : Host) (prompt p : string) (w : World) (e : value) :
  In p AIProvider.values ->
  rejects host
    (story_request p (getStoredApiKey p (localStorage w)) prompt) e ->
  (p = AIProvider.GEMINI -> message_is_text e) ->
  fst (generateStoryBeat host prompt p w)
  = Thrown (if credential_signal p e then API_KEY_ERROR else e).
Proof.
  intros Hp Hrej Htext.
  destruct (switch_supported p Hp) as [[-> Hs] | [[-> Hs] | [-> Hs]]];
    unfold generateStoryBeat, classify, try_catch; rewrite Hs;
    unfold story_request in Hrej; rewrite Hs in Hrej; cbn [rejects] in Hrej.
  - unfold geminiGenerateStory, getProviderKey, read_storage, bind, send.
    unfold geminiStoryRequest in *. rewrite Hrej.
    rewrite handleGeminiError_rule by auto. reflexivity.
  - unfold openaiGenerateStory, getProviderKey, read_storage, bind, send.
    unfold openaiStoryRequest in *. rewrite Hrej.
    rewrite handleOpenAIError_rule. reflexivity.
  - unfold claudeGenerateStory, getProviderKey, read_storage, bind, send.
    unfold claudeStoryRequest in *. rewrite Hrej.
    rewrite handleClaudeError_rule. reflexivity.
Qed.

Lemma facade_classifies_rejections_witness :
  fst (generateStoryBeat
         (sample_host (Thrown (error_object "code" 403 "Forbidden")) offline)
         "Begin" AIProvider.GEMINI empty_world)
  = Thrown API_KEY_ERROR
  /\ fst (generateStoryBeat
            (sample_host (Thrown VUndefined) offline)
            "Begin" AIProvider.OPENAI empty_world)
     = Thrown (VError "Network error").
Proof.
  split.
  - apply (facade_classifies_rejections
             (sample_host (Thrown (error_object "code" 403 "Forbidden"))
                offline)
             "Begin" AIProvider.GEMINI empty_world
             (error_object "code" 403 "Forbidden")).
    + simpl. auto.
    + reflexivity.
    + intros _. exists "Forbidden". reflexivity.
  - apply (facade_classifies_rejections
             (sample_host (Thrown VUndefined) offline)
             "Begin" AIProvider.OPENAI empty_world (VError "Network error")).
    + simpl. auto.
    + reflexivity.
    + intros H. discriminate H.
Defined.

(** ** The usage envelope *)

Lemma gemini_image_returned (host : Host) prompt style quality w r w' :
  geminiGenerateImage host prompt style quality w = (Returned r, w') ->
  provider (usage r) = AIProvider.GEMINI
  /\ isPremium (usage r) = Some false.
Proof.
  intros H. unfold geminiGenerateImage in H. returned H.
  split; reflexivity.
Qed.

Lemma openai_image_returned (host : Host) prompt style quality w r w' :
  openaiGenerateImage host prompt style quality w = (Returned r, w') ->
  provider (usage r) = AIProvider.OPENAI
  /\ isPremium (usage r) = Some true.
Proof.
  intros H. unfold openaiGenerateImage in H. returned H.
  split; reflexivity.
Qed.

Lemma claude_image_returned w r w' :
  claudeGenerateImage w = (Returned r, w') ->
  provider (usage r) = AIProvider.CLAUDE
  /\ isPremium (usage r) = None.
Proof.
  intros H. unfold claudeGenerateImage in H. returned H.
  split; reflexivity.
Qed.

Lemma gemini_chat_returned (host : Host) message gameContext w r w' :
  geminiChat host message gameContext w = (Returned r, w') ->
  provider (usage r) = AIProvider.GEMINI.
Proof.
  intros H. unfold geminiChat in H. returned H. reflexivity.
Qed.

Lemma openai_chat_returned (host : Host) message gameContext w r w' :
  openaiChat host message gameContext w = (Returned r, w') ->
  provider (usage r) = AIProvider.OPENAI.
Proof.
  intros H. unfold openaiChat in H. returned H. reflexivity.
Qed.

Lemma claude_chat_returned (host : Host) message gameContext w r w' :
  claudeChat host message gameContext w = (Returned r, w') ->
  provider (usage r) = AIProvider.CLAUDE.
Proof.
  intros H. unfold claudeChat in H. returned H. reflexivity.
Qed.

(** C10: whichever of the three calls returns, for a supported provider,
    the usage of the result names the provider the call was made with. *)
Theorem usage_names_the_requested_provider
    (host : Host) (prompt style message p : string) (quality : Quality)
    (gameContext : value) (w : World) (r : ServiceResponse) (w' : World) :
  In p AIProvider.values ->
  generateStoryBeat host prompt p w = (Returned r, w')
  \/ generateImage host prompt style p quality w = (Returned r, w')
  \/ getChatResponse host message gameContext p w = (Returned r, w') ->
  provider (usage r) = p.
Proof.
  intros Hp Hrun.
  destruct Hrun as [Hrun | [Hrun | Hrun]];
    apply try_catch_returned in Hrun; try apply classify_throws;
    destruct (switch_supported p Hp) as [[-> Hs] | [[-> Hs] | [-> Hs]]];
    rewrite Hs in Hrun.
  - now apply gemini_story_returned in Hrun as (? & ? & _ & _ & _ & Hpr & _).
  - now apply openai_story_returned in Hrun
      as (? & ? & ? & _ & _ & _ & _ & _ & Hpr & _).
  - now apply claude_story_returned in Hrun
      as (? & ? & ? & _ & _ & _ & _ & _ & Hpr & _).
  - now apply gemini_image_returned in Hrun as [Hpr _].
  - now apply openai_image_returned in Hrun as [Hpr _].
  - now apply claude_image_returned in Hrun as [Hpr _].
  - now apply gemini_chat_returned in Hrun.
  - now apply openai_chat_returned in Hrun.
  - now apply claude_chat_returned in Hrun.
Qed.

Lemma usage_names_the_requested_provider_witness :
  exists r w',
    getChatResponse
      (sample_host (Returned gemini_chat_reply) offline)
      "hello" (VObj context_without_inventory) AIProvider.GEMINI empty_world
    = (Returned r, w')
    /\ provider (usage r) = AIProvider.GEMINI.
Proof.
  eexists. eexists. split.
  - vm_compute. reflexivity.
  - match goal with
    | |- provider (usage ?r) = _ =>
        apply (usage_names_the_requested_provider
                 (sample_host (Returned gemini_chat_reply) offline)
                 "" "" "hello" AIProvider.GEMINI standard_quality
                 (VObj context_without_inventory) empty_world r
                 {| localStorage := ∅;
                    network :=
                      [geminiChatRequest ""
                         (personaText indent12 "High Fantasy"
                            "Find the lost artifact" "")
                         "hello"] |})
    end.
    + simpl. auto.
    + right. right. vm_compute. reflexivity.
Defined.

(** ** The premium flag of an image *)




(** In the single-provider service the flag is the high-resolution switch of
    the request. *)
Lemma gemini_service_image_flag
    (host : Host) (key prompt style : string)
    (size : GeminiService.ImageSize) (isHighResRequested : bool)
    (w : World) (r : GeminiService.ServiceResponse) (w' : World) :
  GeminiService.generateImage host key prompt style size isHighResRequested w
  = (Returned r, w') ->
  GeminiService.isPremium (GeminiService.usage r) = Some isHighResRequested.
Proof.
  intros H. unfold GeminiService.generateImage in H.
  apply try_catch_returned in H.
  - returned H. reflexivity.
  - intros e w0. unfold GeminiService.handleGenAIError, bind, lift.
    destruct (call_toLowerCase _) as [msg | e1]; [| eauto].
    destruct (_ || _); unfold throw; eauto.
Qed.

(** ** The chat and a missing inventory *)

Lemma steady_ret {A} (a : A) : steady (ret a).
Proof. intros w. reflexivity. Qed.

Lemma steady_throw {A} (e : value) : steady (@throw A e).
Proof. intros w. reflexivity. Qed.

Lemma steady_lift {A} (o : Outcome A) : steady (lift o).
Proof. intros w. reflexivity. Qed.

Lemma steady_bind {A B} (m : JS A) (k : A -> JS B) :
  steady m -> (forall a, steady (k a)) -> steady (bind m k).
Proof.
  intros Hm Hk w. unfold bind. specialize (Hm w).
  destruct (m w) as [[a | e] w1]; cbn [snd] in Hm; subst w1.
  - apply Hk.
  - reflexivity.
Qed.

Lemma steady_if {A} (c : bool) (m1 m2 : JS A) :
  steady m1 -> steady m2 -> steady (if c then m1 else m2).
Proof. destruct c; auto. Qed.

Lemma steady_try_catch {A} (body : JS A) (handler : value -> JS A) :
  steady body -> (forall e, steady (handler e)) ->
  steady (try_catch body handler).
Proof.
  intros Hb Hh w. unfold try_catch. specialize (Hb w).
  destruct (body w) as [[a | e] w1]; cbn [snd] in Hb; subst w1.
  - reflexivity.
  - apply Hh.
Qed.

Create HintDb steady.
#[local] Hint Resolve steady_ret steady_throw steady_lift steady_bind
  steady_if steady_try_catch : steady.

Lemma classify_steady {A} (p : string) (e : value) :
  steady (@classify A p e).
Proof.
  unfold classify, handleGeminiError, handleOpenAIError, handleClaudeError.
  destruct (switch p); auto 10 with steady.
Qed.

Lemma snd_try_catch {A} (body : JS A) (handler : value -> JS A) w :
  (forall e, steady (handler e)) ->
  snd (try_catch body handler w) = snd (body w).
Proof.
  intros Hh. unfold try_catch.
  destruct (body w) as [[a | e] w1]; [reflexivity | apply Hh].
Qed.

Lemma snd_bind_send {A B} (reply : Request -> Outcome A) (r : Request)
    (k : A -> JS B) w :
  (forall a, steady (k a)) ->
  snd (bind (send reply r) k w)
  = {| localStorage := localStorage w; network := network w ++ [r] |}.
Proof.
  intros Hk. unfold bind, send.
  destruct (reply r) as [a | e]; [apply Hk | reflexivity].
Qed.

Lemma or_else_nullish (v d : value) : nullish v = true -> v ||| d = d.
Proof. destruct v; try discriminate; reflexivity. Qed.

Lemma persona_without_inventory
    (indent : string) (props : list (string * value)) (w : World) :
  nullish (assoc "inventory" props) = true ->
  persona indent (VObj props) w
  = (Returned (directive_without_items indent props), w).
Proof.
  intros Hinv. unfold persona, bind, lift, get. cbn [nullish prop].
  now rewrite (or_else_nullish _ _ Hinv).
Qed.

Lemma persona_with_empty_inventory
    (indent : string) (props : list (string * value)) (w : World) :
  persona indent (VObj (("inventory", VArr []) :: props)) w
  = (Returned (directive_without_items indent props), w).
Proof. reflexivity. Qed.

(** C6: for every supported provider, the chat of the multi-provider
    service called with a game context whose inventory is undefined, null
    or missing builds its directive without raising, with the line
    "Their inventory includes: ." for the empty item list, issues its
    request with that directive, and goes on as it does for the context
    with the inventory [].  The chat of the single-provider service, on the
    same context, raises the TypeError of the read of [join] and issues no
    request. *)
Theorem chat_with_missing_inventory
    (host : Host) (key message p : string) (props : list (string * value))
    (w : World) :
  In p AIProvider.values ->
  nullish (assoc "inventory" props) = true ->
  (persona (indent_of p) (VObj props) w
   = (Returned (directive_without_items (indent_of p) props), w)
   /\ directive_without_items (indent_of p) props
      = "You are the Chronicler, a wise and helpful sidekick in this infinite adventure game. "
        +:+ newline +:+ indent_of p
        +:+ "The current genre is " +:+ ToString (assoc "genre" props)
        +:+ ". The player's quest is: "
        +:+ ToString (assoc "currentQuest" props) +:+ "."
        +:+ newline +:+ indent_of p
        +:+ "Their inventory includes: ."
        +:+ newline +:+ indent_of p
        +:+ "If the genre is '80s Sci-Fi Horror', speak with 80s slang like 'rad', 'bogus', or 'tubular' occasionally."
   /\ network (snd (getChatResponse host message (VObj props) p w))
      = (network w
         ++ [chat_request p (getStoredApiKey p (localStorage w))
               (directive_without_items (indent_of p) props) message])%list
   /\ getChatResponse host message (VObj props) p w
      = getChatResponse host message
          (VObj (("inventory", VArr []) :: props)) p w)
  /\ GeminiService.getChatResponse host key message (VObj props) w
     = (Thrown (TypeError_read (assoc "inventory" props) "join"), w).
Proof.
  intros Hp Hinv. split; [split; [| split; [| split]] |].
  - now apply persona_without_inventory.
  - reflexivity.
  - unfold getChatResponse.
    rewrite snd_try_catch by (intros e; apply classify_steady).
    unfold indent_of, chat_request.
    destruct (switch_supported p Hp) as [[-> Hs] | [[-> Hs] | [-> Hs]]];
      rewrite Hs.
    + unfold geminiChat. unfold bind at 1, getProviderKey, read_storage.
      unfold bind at 1. rewrite (persona_without_inventory _ _ _ Hinv).
      rewrite snd_bind_send; [reflexivity |]. auto 10 with steady.
    + unfold openaiChat. unfold bind at 1, getProviderKey, read_storage.
      unfold bind at 1. rewrite (persona_without_inventory _ _ _ Hinv).
      rewrite snd_bind_send; [reflexivity |]. auto 20 with steady.
    + unfold claudeChat. unfold bind at 1, getProviderKey, read_storage.
      unfold bind at 1. rewrite (persona_without_inventory _ _ _ Hinv).
      rewrite snd_bind_send; [reflexivity |]. auto 20 with steady.
  - unfold getChatResponse.
    destruct (switch p); try reflexivity.
    + cbv beta iota delta [geminiChat bind getProviderKey read_storage try_catch].
      now rewrite (persona_without_inventory _ _ _ Hinv),
        persona_with_empty_inventory.
    + cbv beta iota delta [openaiChat bind getProviderKey read_storage try_catch].
      now rewrite (persona_without_inventory _ _ _ Hinv),
        persona_with_empty_inventory.
    + cbv beta iota delta [claudeChat bind getProviderKey read_storage try_catch].
      now rewrite (persona_without_inventory _ _ _ Hinv),
        persona_with_empty_inventory.
  - cbv beta iota delta [GeminiService.getChatResponse GeminiService.persona
                         try_catch bind lift get nullish prop].
    destruct (assoc "inventory" props); try discriminate Hinv; reflexivity.
Qed.

Lemma chat_with_missing_inventory_witness :
  In AIProvider.GEMINI AIProvider.values
  /\ nullish (assoc "inventory" context_without_inventory) = true
  /\ network
       (snd (getChatResponse
               (sample_host (Returned gemini_chat_reply) offline)
               "hello" (VObj context_without_inventory) AIProvider.GEMINI
               empty_world))
     = [geminiChatRequest ""
          (personaText indent12 "High Fantasy" "Find the lost artifact" "")
          "hello"]
  /\ fst (getChatResponse
            (sample_host (Returned gemini_chat_reply) offline)
            "hello" (VObj context_without_inventory) AIProvider.GEMINI
            empty_world)
     = Returned {| data := VStr "Hello, brave adventurer!";
                   usage := {| inputTokens := VNum 50;
                               outputTokens := VNum 25;
                               isPremium := None;
                               provider := AIProvider.GEMINI |} |}
  /\ fst (GeminiService.getChatResponse
            (sample_host (Returned gemini_chat_reply) offline) "" "hello"
            (VObj context_without_inventory) empty_world)
     = Thrown (VError "Cannot read properties of undefined (reading 'join')").
Proof.
  assert (Hp : In AIProvider.GEMINI AIProvider.values) by (simpl; auto).
  assert (Hinv : nullish (assoc "inventory" context_without_inventory) = true)
    by reflexivity.
  split; [exact Hp |]. split; [exact Hinv |].
  destruct (chat_with_missing_inventory
              (sample_host (Returned gemini_chat_reply) offline)
              "" "hello" AIProvider.GEMINI context_without_inventory
              empty_world Hp Hinv) as ((_ & _ & Hnet & _) & Hlegacy).
  split; [| split].
  - rewrite Hnet. reflexivity.
  - vm_compute. reflexivity.
  - rewrite Hlegacy. reflexivity.
Defined.

(** C6 as it stands fails for the single-provider service.  On the game
    state of the tests with its inventory set to [undefined], its chat
    raises the TypeError of the read of [join] and issues no request; the
    chat of the multi-provider service returns the answer on the same
    state. *)
Lemma gemini_service_chat_rejects_undefined_inventory :
  GeminiService.getChatResponse
    (sample_host (Returned gemini_chat_reply) offline) "" "hello"
    (VObj context_with_undefined_inventory) empty_world
  = (Thrown (VError "Cannot read properties of undefined (reading 'join')"),
     empty_world)
  /\ fst (getChatResponse
            (sample_host (Returned gemini_chat_reply) offline)
            "hello" (VObj context_with_undefined_inventory)
            AIProvider.GEMINI empty_world)
     = Returned {| data := VStr "Hello, brave adventurer!";
                   usage := {| inputTokens := VNum 50;
                               outputTokens := VNum 25;
                               isPremium := None;
                               provider := AIProvider.GEMINI |} |}.
Proof. split; vm_compute; reflexivity. Qed.

(** The single-provider service calls [join] on the inventory as it is: with
    a missing inventory its chat raises the TypeError of the read and issues
    no request. *)
Lemma gemini_service_chat_needs_inventory
    (host : Host) (key message : string) (props : list (string * value))
    (w : World) :
  assoc "inventory" props = VUndefined ->
  GeminiService.getChatResponse host key message (VObj props) w
  = (Thrown (TypeError_read VUndefined "join"), w).
Proof.
  intros Hinv.
  cbv beta iota delta [GeminiService.getChatResponse GeminiService.persona
                       try_catch bind lift get nullish prop].
  rewrite Hinv. reflexivity.
Qed.

(** ** Saving the session *)

Lemma superLeanSaves_has_no_image (updated : list App.SaveSlot) :
  Forall
    (fun s => Forall (fun h => App.imageUrl h = None) (App.history s))
    (App.superLeanSaves updated).
Proof.
  unfold App.superLeanSaves.
  induction updated as [| s rest IH]; cbn [map]; constructor; [| exact IH].
  cbn [App.withHistory App.history].
  induction (App.history s) as [| h older IHh]; cbn [map]; constructor;
    [reflexivity | exact IHh].
Qed.

(** On a write over the quota every image of every slot is stripped and the
    write is tried again, once; a retry that succeeds stores the stripped
    slots. *)
Lemma quota_failure_strips_and_retries_once
    (rejects : list App.SaveSlot -> option App.Exception)
    (gameState : value) (saveId : string) (c : App.Component) (now : Z)
    (prevSaves : list App.SaveSlot) (st : App.Store) (error : App.Exception) :
  let updated := App.updatedSaves gameState saveId c now prevSaves in
  rejects updated = Some error ->
  App.isQuotaExceeded error = true ->
  App.attempts
    (snd (App.syncSaves rejects gameState saveId c now prevSaves st))
  = (App.attempts st ++ [updated; App.superLeanSaves updated])%list
  /\ (rejects (App.superLeanSaves updated) = None ->
      App.syncSaves rejects gameState saveId c now prevSaves st
      = (App.Completed updated,
         {| App.saved := Some (App.superLeanSaves updated);
            App.attempts :=
              (App.attempts st ++ [updated; App.superLeanSaves updated])%list
         |})).
Proof.
  intros updated Hfirst Hquota.
  unfold App.syncSaves. fold updated. unfold App.setItem. rewrite Hfirst, Hquota.
  cbn [App.attempts App.saved].
  split.
  - destruct (rejects (App.superLeanSaves updated));
      cbn [snd App.attempts]; now rewrite <- List.app_assoc.
  - intros ->. now rewrite <- List.app_assoc.
Qed.

(** A retry that fails raises its exception out of the updater. *)
Lemma retry_failure_is_raised
    (rejects : list App.SaveSlot -> option App.Exception)
    (gameState : value) (saveId : string) (c : App.Component) (now : Z)
    (prevSaves : list App.SaveSlot) (st : App.Store)
    (error error2 : App.Exception) :
  let updated := App.updatedSaves gameState saveId c now prevSaves in
  rejects updated = Some error ->
  App.isQuotaExceeded error = true ->
  rejects (App.superLeanSaves updated) = Some error2 ->
  fst (App.syncSaves rejects gameState saveId c now prevSaves st)
  = App.Raised error2.
Proof.
  intros updated Hfirst Hquota Hretry.
  unfold App.syncSaves. fold updated. unfold App.setItem. now rewrite Hfirst, Hquota, Hretry.
Qed.

(** A first failure that is not a quota error is dropped, without a
    retry. *)
Lemma other_failure_is_dropped
    (rejects : list App.SaveSlot -> option App.Exception)
    (gameState : value) (saveId : string) (c : App.Component) (now : Z)
    (prevSaves : list App.SaveSlot) (st : App.Store) (error : App.Exception) :
  let updated := App.updatedSaves gameState saveId c now prevSaves in
  rejects updated = Some error ->
  App.isQuotaExceeded error = false ->
  App.syncSaves rejects gameState saveId c now prevSaves st
  = (App.Completed updated,
     {| App.saved := App.saved st;
        App.attempts := (App.attempts st ++ [updated])%list |}).
Proof.
  intros updated Hfirst Hquota.
  unfold App.syncSaves. fold updated. unfold App.setItem. now rewrite Hfirst, Hquota.
Qed.

(** C3 at a storage with no room left: the first write and the retry with
    the stripped slots are both over the quota, and the exception of the
    retry leaves the effect; on a storage with room for the stripped slots
    the same session is saved without its images. *)
Theorem save_retry_failure_escapes :
  App.saveEffect full_storage playing 1 saves empty_store
  = (App.Raised QuotaExceededError,
     {| App.saved := None;
        App.attempts :=
          [App.updatedSaves (VObj []) "slot-1" playing 1 saves;
           App.superLeanSaves
             (App.updatedSaves (VObj []) "slot-1" playing 1 saves)] |})
  /\ App.saveEffect tight_storage playing 1 saves empty_store
     = (App.Completed (App.updatedSaves (VObj []) "slot-1" playing 1 saves),
        {| App.saved :=
             Some (App.superLeanSaves
                     (App.updatedSaves (VObj []) "slot-1" playing 1 saves));
           App.attempts :=
             [App.updatedSaves (VObj []) "slot-1" playing 1 saves;
              App.superLeanSaves
                (App.updatedSaves (VObj []) "slot-1" playing 1 saves)] |}).
Proof. split; vm_compute; reflexivity. Qed.

(** * Further properties of the service *)

(** ** Providers outside the enum *)

(** X1: for a provider identifier outside the enum, each of the three calls
    raises the error that names the identifier and issues no request. *)
Theorem unsupported_provider_is_refused
    (host : Host) (prompt style message p : string) (quality : Quality)
    (gameContext : value) (w : World) :
  ~ In p AIProvider.values ->
  generateStoryBeat host prompt p w
  = (Thrown (Error ("Unsupported provider: " +:+ p)), w)
  /\ generateImage host prompt style p quality w
     = (Thrown (Error ("Unsupported provider: " +:+ p)), w)
  /\ getChatResponse host message gameContext p w
     = (Thrown (Error ("Unsupported provider: " +:+ p)), w).
Proof.
  intros Hout.
  unfold generateStoryBeat, generateImage, getChatResponse, try_catch,
    classify.
  rewrite (switch_default p Hout).
  split; [| split]; reflexivity.
Qed.

Lemma unsupported_provider_is_refused_witness :
  ~ In "UNSUPPORTED" AIProvider.values
  /\ generateStoryBeat (sample_host (Thrown VUndefined) offline)
       "test" "UNSUPPORTED" empty_world
     = (Thrown (Error "Unsupported provider: UNSUPPORTED"), empty_world).
Proof.
  assert (Hout : ~ In "UNSUPPORTED" AIProvider.values).
  { simpl. intros [H | [H | [H | []]]]; discriminate H. }
  split; [exact Hout |].
  destruct (unsupported_provider_is_refused
              (sample_host (Thrown VUndefined) offline)
              "test" "" "" "UNSUPPORTED" standard_quality VUndefined
              empty_world Hout) as [Hstory _].
  exact Hstory.
Defined.

(** ** One request at most *)

Lemma steady_read_storage {A} (f : gmap string string -> A) :
  steady (read_storage f).
Proof. intros w. reflexivity. Qed.

Lemma steady_getProviderKey (p : string) : steady (getProviderKey p).
Proof. apply steady_read_storage. Qed.

Lemma steady_persona (indent : string) (gameContext : value) :
  steady (persona indent gameContext).
Proof. unfold persona. auto 10 with steady. Qed.

Lemma steady_withDefaults (parsed : value) : steady (withDefaults parsed).
Proof. unfold withDefaults. auto 20 with steady. Qed.

#[local] Hint Resolve steady_getProviderKey steady_persona
  steady_withDefaults classify_steady : steady.

Lemma steady_sends_nothing {A} (m : JS A) :
  steady m -> at_most_one_request m.
Proof.
  intros Hm w. rewrite (Hm w). split; [reflexivity |].
  exists []. split; [now rewrite app_nil_r | simpl; lia].
Qed.

Lemma one_request_after_steady {A B} (m : JS A) (k : A -> JS B) :
  steady m -> (forall a, at_most_one_request (k a)) ->
  at_most_one_request (bind m k).
Proof.
  intros Hm Hk w. unfold bind. specialize (Hm w).
  destruct (m w) as [[a | e] w1]; cbn [snd] in Hm; subst w1.
  - apply Hk.
  - apply (steady_sends_nothing (throw e)). apply steady_throw.
Qed.

Lemma one_request_sent {A B} (reply : Request -> Outcome A) (r : Request)
    (k : A -> JS B) :
  (forall a, steady (k a)) -> at_most_one_request (bind (send reply r) k).
Proof.
  intros Hk w. rewrite (snd_bind_send reply r k w Hk). cbn [localStorage network].
  split; [reflexivity |]. exists [r]. split; [reflexivity | simpl; lia].
Qed.

Lemma one_request_try_catch {A} (body : JS A) (handler : value -> JS A) :
  at_most_one_request body -> (forall e, steady (handler e)) ->
  at_most_one_request (try_catch body handler).
Proof.
  intros Hb Hh w. rewrite (snd_try_catch body handler w Hh). apply Hb.
Qed.

Lemma story_adapters_send_once (host : Host) (prompt : string) :
  at_most_one_request (geminiGenerateStory host prompt)
  /\ at_most_one_request (openaiGenerateStory host prompt)
  /\ at_most_one_request (claudeGenerateStory host prompt).
Proof.
  split; [| split].
  - unfold geminiGenerateStory.
    apply one_request_after_steady; [auto with steady | intros apiKey].
    apply one_request_sent. auto 20 with steady.
  - unfold openaiGenerateStory.
    apply one_request_after_steady; [auto with steady | intros apiKey].
    apply one_request_sent. auto 30 with steady.
  - unfold claudeGenerateStory.
    apply one_request_after_steady; [auto with steady | intros apiKey].
    apply one_request_sent. auto 30 with steady.
Qed.

Lemma image_adapters_send_once
    (host : Host) (prompt style : string) (quality : Quality) :
  at_most_one_request (geminiGenerateImage host prompt style quality)
  /\ at_most_one_request (openaiGenerateImage host prompt style quality)
  /\ at_most_one_request claudeGenerateImage.
Proof.
  split; [| split].
  - unfold geminiGenerateImage.
    apply one_request_after_steady; [auto with steady | intros apiKey].
    cbv zeta. apply one_request_sent. auto 20 with steady.
  - unfold openaiGenerateImage. cbv zeta.
    apply one_request_after_steady; [auto with steady | intros apiKey].
    apply one_request_sent. auto 30 with steady.
  - apply steady_sends_nothing. unfold claudeGenerateImage.
    auto with steady.
Qed.

Lemma chat_adapters_send_once
    (host : Host) (message : string) (gameContext : value) :
  at_most_one_request (geminiChat host message gameContext)
  /\ at_most_one_request (openaiChat host message gameContext)
  /\ at_most_one_request (claudeChat host message gameContext).
Proof.
  split; [| split].
  - unfold geminiChat.
    apply one_request_after_steady; [auto with steady | intros apiKey].
    apply one_request_after_steady; [auto with steady | intros directive].
    apply one_request_sent. auto 20 with steady.
  - unfold openaiChat.
    apply one_request_after_steady; [auto with steady | intros apiKey].
    apply one_request_after_steady; [auto with steady | intros directive].
    apply one_request_sent. auto 30 with steady.
  - unfold claudeChat.
    apply one_request_after_steady; [auto with steady | intros apiKey].
    apply one_request_after_steady; [auto with steady | intros directive].
    apply one_request_sent. auto 30 with steady.
Qed.

(** X2: whatever the provider identifier, the host and the outcome, a call
    of the service leaves the storage as it was and issues one request at
    most. *)
Theorem service_call_sends_one_request_at_most
    (host : Host) (prompt style message p : string) (quality : Quality)
    (gameContext : value) :
  at_most_one_request (generateStoryBeat host prompt p)
  /\ at_most_one_request (generateImage host prompt style p quality)
  /\ at_most_one_request (getChatResponse host message gameContext p).
Proof.
  destruct (story_adapters_send_once host prompt) as (Hg & Ho & Hc).
  destruct (image_adapters_send_once host prompt style quality)
    as (Hgi & Hoi & Hci).
  destruct (chat_adapters_send_once host message gameContext)
    as (Hgc & Hoc & Hcc).
  unfold generateStoryBeat, generateImage, getChatResponse.
  split; [| split];
    (apply one_request_try_catch; [| intros e; apply classify_steady]);
    destruct (switch p); try assumption;
    apply steady_sends_nothing, steady_throw.
Qed.

(** ** Replies that are no story *)

(** X3: an HTTP error reply to the story call of OpenAI or of Claude is
    raised as the error of the adapter, which carries the status text and
    nothing of the status code, after the one request. *)
Theorem http_error_reply_is_raised
    (host : Host) (prompt p : string) (w : World) (response : Response) :
  p = AIProvider.OPENAI \/ p = AIProvider.CLAUDE ->
  http host (story_request p (getStoredApiKey p (localStorage w)) prompt)
  = Returned response ->
  ok response = false ->
  generateStoryBeat host prompt p w
  = (Thrown (Error (provider_label p +:+ " API error: "
                    +:+ statusText response)),
     {| localStorage := localStorage w;
        network :=
          (network w
           ++ [story_request p (getStoredApiKey p (localStorage w)) prompt])
          %list |}).
Proof.
  intros [-> | ->] Hreq Hok.
  - cbv beta iota delta [generateStoryBeat try_catch openaiGenerateStory
                          bind send getProviderKey read_storage].
    change (switch AIProvider.OPENAI) with CaseOpenAI. cbv iota.
    change (story_request AIProvider.OPENAI)
      with (fun apiKey prompt => openaiStoryRequest apiKey prompt) in *.
    cbv beta in *. rewrite Hreq, Hok. reflexivity.
  - cbv beta iota delta [generateStoryBeat try_catch claudeGenerateStory
                          bind send getProviderKey read_storage].
    change (switch AIProvider.CLAUDE) with CaseClaude. cbv iota.
    change (story_request AIProvider.CLAUDE)
      with (fun apiKey prompt => claudeStoryRequest apiKey prompt) in *.
    cbv beta in *. rewrite Hreq, Hok. reflexivity.
Qed.

Lemma http_error_reply_is_raised_witness :
  generateStoryBeat
    (sample_host (Thrown VUndefined)
       (Returned (error_response 429 "Rate Limited" "")))
    "test" AIProvider.CLAUDE empty_world
  = (Thrown (Error "Claude API error: Rate Limited"),
     {| localStorage := ∅;
        network := [claudeStoryRequest "" "test"] |}).
Proof.
  apply (http_error_reply_is_raised
           (sample_host (Thrown VUndefined)
              (Returned (error_response 429 "Rate Limited" "")))
           "test" AIProvider.CLAUDE empty_world
           (error_response 429 "Rate Limited" "")).
  - right. reflexivity.
  - reflexivity.
  - reflexivity.
Defined.

Lemma reply_content_openai (body : value) :
  nullish body = false ->
  nullish (prop body "choices") = false ->
  nullish (item (prop body "choices") 0) = false ->
  nullish (prop (item (prop body "choices") 0) "message") = false ->
  reply_content AIProvider.OPENAI body
  = prop (prop (item (prop body "choices") 0) "message") "content".
Proof.
  intros H1 H2 H3 H4. unfold reply_content, get_opt, get_index_opt.
  change (switch AIProvider.OPENAI) with CaseOpenAI. cbv iota.
  now rewrite H1, H2, H3, H4.
Qed.

Lemma reply_content_claude (body : value) :
  nullish body = false ->
  nullish (prop body "content") = false ->
  nullish (item (prop body "content") 0) = false ->
  reply_content AIProvider.CLAUDE body
  = prop (item (prop body "content") 0) "text".
Proof.
  intros H1 H2 H3. unfold reply_content, get_opt, get_index_opt.
  change (switch AIProvider.CLAUDE) with CaseClaude. cbv iota.
  now rewrite H1, H2, H3.
Qed.

(** X4: when the text of an OpenAI or Claude reply does not parse to a value
    other than null, whatever [JSON.parse] throws, the story call raises the
    fixed error of the adapter; the error of the parser does not come
    through. *)
Theorem unparsable_reply_is_invalid_format
    (host : Host) (prompt p : string) (w : World)
    (response : Response) (body : value) :
  p = AIProvider.OPENAI \/ p = AIProvider.CLAUDE ->
  http host (story_request p (getStoredApiKey p (localStorage w)) prompt)
  = Returned response ->
  ok response = true ->
  json response = Returned body ->
  (forall parsed,
      JSON_parse host (ToString (reply_content p body)) = Returned parsed ->
      nullish parsed = true) ->
  fst (generateStoryBeat host prompt p w)
  = Thrown (Error ("Invalid response format from " +:+ provider_label p)).
Proof.
  intros [-> | ->] Hreq Hok Hjson Hparse.
  - cbv beta iota delta [generateStoryBeat try_catch openaiGenerateStory
                          bind send lift getProviderKey read_storage].
    change (switch AIProvider.OPENAI) with CaseOpenAI. cbv iota.
    change (story_request AIProvider.OPENAI)
      with (fun apiKey prompt => openaiStoryRequest apiKey prompt) in *.
    cbv beta in *. rewrite Hreq, Hok, Hjson. cbn [negb].
    unfold get, get_index.
    destruct (nullish body) eqn:H1; [reflexivity |].
    destruct (nullish (prop body "choices")) eqn:H2; [reflexivity |].
    destruct (nullish (item (prop body "choices") 0)) eqn:H3;
      [reflexivity |].
    destruct (nullish (prop (item (prop body "choices") 0) "message"))
      eqn:H4; [reflexivity |].
    rewrite (reply_content_openai body H1 H2 H3 H4) in Hparse.
    destruct (JSON_parse host _) as [parsed | e]; [| reflexivity].
    unfold withDefaults, bind, lift, get.
    now rewrite (Hparse parsed eq_refl).
  - cbv beta iota delta [generateStoryBeat try_catch claudeGenerateStory
                          bind send lift getProviderKey read_storage].
    change (switch AIProvider.CLAUDE) with CaseClaude. cbv iota.
    change (story_request AIProvider.CLAUDE)
      with (fun apiKey prompt => claudeStoryRequest apiKey prompt) in *.
    cbv beta in *. rewrite Hreq, Hok, Hjson. cbn [negb].
    unfold get, get_index.
    destruct (nullish body) eqn:H1; [reflexivity |].
    destruct (nullish (prop body "content")) eqn:H2; [reflexivity |].
    destruct (nullish (item (prop body "content") 0)) eqn:H3;
      [reflexivity |].
    rewrite (reply_content_claude body H1 H2 H3) in Hparse.
    destruct (JSON_parse host _) as [parsed | e]; [| reflexivity].
    unfold withDefaults, bind, lift, get.
    now rewrite (Hparse parsed eq_refl).
Qed.

Lemma unparsable_reply_is_invalid_format_witness :
  fst (generateStoryBeat
         (sample_host (Thrown VUndefined)
            (Returned
               (ok_response
                  (VObj [("choices",
                          VArr [VObj [("message",
                                       VObj [("content",
                                              VStr "Once upon a time")])]]);
                         ("usage", VObj [])]))))
         "test" AIProvider.OPENAI empty_world)
  = Thrown (Error "Invalid response format from OpenAI").
Proof.
  apply (unparsable_reply_is_invalid_format
           (sample_host (Thrown VUndefined)
              (Returned
                 (ok_response
                    (VObj [("choices",
                            VArr [VObj [("message",
                                         VObj [("content",
                                                VStr "Once upon a time")])]]);
                           ("usage", VObj [])]))))
           "test" AIProvider.OPENAI empty_world
           (ok_response
              (VObj [("choices",
                      VArr [VObj [("message",
                                   VObj [("content",
                                          VStr "Once upon a time")])]]);
                     ("usage", VObj [])]))
           (VObj [("choices",
                   VArr [VObj [("message",
                                VObj [("content",
                                       VStr "Once upon a time")])]]);
                  ("usage", VObj [])])).
  - left. reflexivity.
  - reflexivity.
  - reflexivity.
  - reflexivity.
  - intros parsed H. vm_compute in H. discriminate H.
Defined.

(** X5: a well-formed reply is a result.  When the OpenAI reply carries a
    text that parses to a value other than null and a usage object, the story
    call returns the state with its defaults and the two token counts of the
    reply, as they are. *)
Theorem openai_story_succeeds
    (host : Host) (prompt : string) (w : World)
    (response : Response) (body parsed : value) :
  http host
    (openaiStoryRequest (getStoredApiKey AIProvider.OPENAI (localStorage w))
       prompt)
  = Returned response ->
  ok response = true ->
  json response = Returned body ->
  nullish body = false ->
  nullish (prop body "choices") = false ->
  nullish (item (prop body "choices") 0) = false ->
  nullish (prop (item (prop body "choices") 0) "message") = false ->
  JSON_parse host (ToString (reply_content AIProvider.OPENAI body))
  = Returned parsed ->
  nullish parsed = false ->
  nullish (prop body "usage") = false ->
  fst (generateStoryBeat host prompt AIProvider.OPENAI w)
  = Returned
      {| data :=
           VObj (map (fun fd => (fst fd, prop parsed (fst fd) ||| snd fd))
                   defaults);
         usage :=
           {| inputTokens := prop (prop body "usage") "prompt_tokens";
              outputTokens := prop (prop body "usage") "completion_tokens";
              isPremium := None;
              provider := AIProvider.OPENAI |} |}.
Proof.
  intros Hreq Hok Hjson H1 H2 H3 H4 Hparse Hp Hu.
  rewrite (reply_content_openai body H1 H2 H3 H4) in Hparse.
  cbv beta iota delta [generateStoryBeat try_catch openaiGenerateStory
                        bind send lift getProviderKey read_storage].
  change (switch AIProvider.OPENAI) with CaseOpenAI. cbv beta iota.
  rewrite Hreq, Hok, Hjson. cbn [negb].
  unfold get, get_index. rewrite H1, H2, H3, H4, Hparse.
  unfold withDefaults, bind, lift, get. rewrite Hp, Hu. reflexivity.
Qed.

Lemma openai_story_succeeds_witness :
  fst (generateStoryBeat
         (sample_host (Thrown VUndefined) (Returned openai_partial_reply))
         "Begin" AIProvider.OPENAI empty_world)
  = Returned
      {| data :=
           VObj (map (fun fd =>
                        (fst fd,
                         prop (VObj [("storyText", VStr "X");
                                     ("choices", VArr [VStr "Continue"])])
                           (fst fd) ||| snd fd))
                   defaults);
         usage :=
           {| inputTokens := VNum 100;
              outputTokens := VNum 150;
              isPremium := None;
              provider := AIProvider.OPENAI |} |}.
Proof.
  apply (openai_story_succeeds
           (sample_host (Thrown VUndefined) (Returned openai_partial_reply))
           "Begin" empty_world openai_partial_reply
           (VObj [("choices",
                   VArr [VObj [("message",
                                VObj [("content", VStr partial_reply_text)])]]);
                  ("usage",
                   VObj [("prompt_tokens", VNum 100);
                         ("completion_tokens", VNum 150)])])
           (VObj [("storyText", VStr "X");
                  ("choices", VArr [VStr "Continue"])]));
    reflexivity.
Defined.

(** ** The classifier of Gemini *)

Lemma toLowerCase_app (a b : string) :
  toLowerCase (a +:+ b) = toLowerCase a +:+ toLowerCase b.
Proof.
  induction a as [| c a IH]; [reflexivity |].
  change (toLowerCase (String c a +:+ b))
    with (String (lower_ascii c) (toLowerCase (a +:+ b))).
  now rewrite IH.
Qed.

Lemma prefix_of_app (needle rest : string) :
  String.prefix needle (needle +:+ rest) = true.
Proof.
  induction needle as [| c needle IH]; simpl.
  - now destruct rest.
  - destruct (Ascii.ascii_dec c c) as [_ | Hne]; [exact IH | now elim Hne].
Qed.

Lemma includes_inside (before needle after : string) :
  includes (before +:+ needle +:+ after) needle = true.
Proof.
  induction before as [| c before IH].
  - change ("" +:+ needle +:+ after) with (needle +:+ after).
    destruct (needle +:+ after) eqn:Happ; unfold includes; fold includes;
      rewrite <- Happ, prefix_of_app; reflexivity.
  - change (String c before +:+ needle +:+ after)
      with (String c (before +:+ needle +:+ after)).
    unfold includes; fold includes. rewrite IH. apply orb_true_r.
Qed.

Lemma gemini_story_rejected
    (host : Host) (prompt : string) (w : World) (e : value) :
  sdk host
    (geminiStoryRequest (getStoredApiKey AIProvider.GEMINI (localStorage w))
       prompt)
  = Thrown e ->
  message_is_text e ->
  fst (generateStoryBeat host prompt AIProvider.GEMINI w)
  = Thrown (if credential_signal AIProvider.GEMINI e
            then API_KEY_ERROR else e).
Proof.
  intros Hrej Htext.
  cbv beta iota delta [generateStoryBeat try_catch geminiGenerateStory
                        bind send getProviderKey read_storage classify].
  change (switch AIProvider.GEMINI) with CaseGemini. cbv beta iota.
  rewrite Hrej. now rewrite handleGeminiError_rule.
Qed.

(** X6: Gemini's classifier reads the message without regard to the case of
    its letters and anywhere in it: a rejection whose message holds one of
    the three phrases, in any case, raises API_KEY_ERROR. *)
Theorem gemini_phrase_in_any_case
    (host : Host) (prompt : string) (w : World) (e : value)
    (before variant after : string) :
  sdk host
    (geminiStoryRequest (getStoredApiKey AIProvider.GEMINI (localStorage w))
       prompt)
  = Thrown e ->
  error_text e = VStr (before +:+ variant +:+ after) ->
  In (toLowerCase variant) credential_phrases ->
  fst (generateStoryBeat host prompt AIProvider.GEMINI w)
  = Thrown API_KEY_ERROR.
Proof.
  intros Hrej Htext Hphrase.
  rewrite (gemini_story_rejected host prompt w e Hrej)
    by (eexists; exact Htext).
  assert (Hsig : credential_signal AIProvider.GEMINI e = true).
  { unfold credential_signal.
    change (String.eqb AIProvider.GEMINI AIProvider.GEMINI) with true.
    cbv iota. rewrite Htext. apply orb_true_iff. right.
    apply existsb_exists. exists (toLowerCase variant). split; [assumption |].
    rewrite !toLowerCase_app. apply includes_inside. }
  now rewrite Hsig.
Qed.

Lemma gemini_phrase_in_any_case_witness :
  fst (generateStoryBeat
         (sample_host
            (Thrown (VError "Requested entity was Not Found."))
            offline)
         "test" AIProvider.GEMINI empty_world)
  = Thrown API_KEY_ERROR.
Proof.
  apply (gemini_phrase_in_any_case
           (sample_host
              (Thrown (VError "Requested entity was Not Found.")) offline)
           "test" empty_world (VError "Requested entity was Not Found.")
           "Requested entity was " "Not Found" ".").
  - reflexivity.
  - reflexivity.
  - simpl. auto.
Defined.

(** X7: a Gemini reply whose text [JSON.parse] rejects is not turned into a
    format error: the error of the parser goes through Gemini's classifier,
    which raises it again as it is or, by its message, as API_KEY_ERROR. *)
Theorem gemini_parse_failure_is_classified
    (host : Host) (prompt : string) (w : World) (response e : value) :
  sdk host
    (geminiStoryRequest (getStoredApiKey AIProvider.GEMINI (localStorage w))
       prompt)
  = Returned response ->
  nullish response = false ->
  JSON_parse host (ToString (prop response "text" ||| VStr "{}")) = Thrown e ->
  message_is_text e ->
  fst (generateStoryBeat host prompt AIProvider.GEMINI w)
  = Thrown (if credential_signal AIProvider.GEMINI e
            then API_KEY_ERROR else e).
Proof.
  intros Hreq Hresp Hparse Htext.
  cbv beta iota delta [generateStoryBeat try_catch geminiGenerateStory
                        bind send lift getProviderKey read_storage classify].
  change (switch AIProvider.GEMINI) with CaseGemini. cbv beta iota.
  rewrite Hreq. unfold get. rewrite Hresp, Hparse.
  now rewrite handleGeminiError_rule.
Qed.

Lemma gemini_parse_failure_is_classified_witness :
  fst (generateStoryBeat
         (sample_host (Returned (VObj [("text", VStr "invalid json")]))
            offline)
         "test" AIProvider.GEMINI empty_world)
  = Thrown (VError "Unexpected token in JSON").
Proof.
  apply (gemini_parse_failure_is_classified
           (sample_host (Returned (VObj [("text", VStr "invalid json")]))
              offline)
           "test" empty_world (VObj [("text", VStr "invalid json")])
           (VError "Unexpected token in JSON")).
  - reflexivity.
  - reflexivity.
  - reflexivity.
  - exists "Unexpected token in JSON". reflexivity.
Defined.

(** ** The envelope of Gemini *)

Lemma or_else_truthy (x d : value) :
  truthy d = true -> truthy (x ||| d) = true.
Proof.
  intros Hd. unfold or_else. now destruct (truthy x) eqn:Hx.
Qed.

Lemma or_else_falsy (x d : value) :
  truthy (x ||| d) = false -> x ||| d = d.
Proof.
  unfold or_else. destruct (truthy x) eqn:Hx; [congruence | reflexivity].
Qed.

(** X8: the chat of Gemini never returns an empty answer: the data of a
    result is the text of the reply, or the fixed apology when the reply has
    no text or an empty one. *)
Theorem gemini_chat_answer_is_never_empty
    (host : Host) (message : string) (gameContext : value)
    (w : World) (r : ServiceResponse) (w' : World) :
  getChatResponse host message gameContext AIProvider.GEMINI w
  = (Returned r, w') ->
  truthy (data r) = true
  /\ exists request response,
       sdk host request = Returned response
       /\ data r
          = prop response "text"
            ||| VStr "I apologize, my vision is clouded...".
Proof.
  intros Hrun. unfold getChatResponse in Hrun.
  apply try_catch_returned in Hrun; [| apply classify_throws].
  change (switch AIProvider.GEMINI) with CaseGemini in Hrun. cbv iota in Hrun.
  unfold geminiChat in Hrun. returned Hrun. reads. cbn [data].
  split; [now apply or_else_truthy |].
  do 2 eexists. split; [eassumption | reflexivity].
Qed.

Lemma gemini_chat_answer_is_never_empty_witness :
  exists r w',
    getChatResponse
      (sample_host (Returned (VObj [("text", VStr "")])) offline)
      "hello" (VObj context_without_inventory) AIProvider.GEMINI empty_world
    = (Returned r, w')
    /\ data r = VStr "I apologize, my vision is clouded..."
    /\ truthy (data r) = true.
Proof.
  eexists. eexists. split; [| split].
  - vm_compute. reflexivity.
  - reflexivity.
  - match goal with
    | |- truthy (data ?r) = true =>
        destruct
          (gemini_chat_answer_is_never_empty
             (sample_host (Returned (VObj [("text", VStr "")])) offline)
             "hello" (VObj context_without_inventory) empty_world r
             {| localStorage := ∅;
                network :=
                  [geminiChatRequest ""
                     (personaText indent12 "High Fantasy"
                        "Find the lost artifact" "")
                     "hello"] |})
          as [Htruthy _]
    end.
    + vm_compute. reflexivity.
    + exact Htruthy.
Defined.

(** X9: the token counts of a Gemini result are those of the reply to the
    one request of the call, each taken by itself: a count the reply
    carries as a truthy value is reported as it is, and a count the reply
    does not carry (no [usageMetadata], or metadata without the count), or
    carries as a falsy value, is reported as the number 0; for the story,
    the image and the chat alike. *)
Theorem gemini_counts_default_to_zero
    (host : Host) (prompt style message : string) (quality : Quality)
    (gameContext : value) (w : World) (r : ServiceResponse) (w' : World) :
  generateStoryBeat host prompt AIProvider.GEMINI w = (Returned r, w')
  \/ generateImage host prompt style AIProvider.GEMINI quality w
     = (Returned r, w')
  \/ getChatResponse host message gameContext AIProvider.GEMINI w
     = (Returned r, w') ->
  exists request response,
    network w' = (network w ++ [request])%list
    /\ sdk host request = Returned response
    /\ inputTokens (usage r)
       = (if truthy (reply_count response "promptTokenCount")
          then reply_count response "promptTokenCount"
          else VNum 0)
    /\ outputTokens (usage r)
       = (if truthy (reply_count response "candidatesTokenCount")
          then reply_count response "candidatesTokenCount"
          else VNum 0)
    /\ (nullish (prop response "usageMetadata") = true ->
        inputTokens (usage r) = VNum 0 /\ outputTokens (usage r) = VNum 0).
Proof.
  intros [Hrun | [Hrun | Hrun]];
    apply try_catch_returned in Hrun; try apply classify_throws;
    change (switch AIProvider.GEMINI) with CaseGemini in Hrun;
    cbv iota in Hrun.
  - unfold geminiGenerateStory in Hrun. returned Hrun. reads.
    do 2 eexists. split; [reflexivity |]. split; [eassumption |].
    split; [reflexivity |]. split; [reflexivity |].
    intros Hnone. cbn [usage inputTokens outputTokens].
    unfold get_opt. now rewrite Hnone.
  - unfold geminiGenerateImage in Hrun. returned Hrun. reads.
    do 2 eexists. split; [reflexivity |]. split; [eassumption |].
    split; [reflexivity |]. split; [reflexivity |].
    intros Hnone. cbn [usage inputTokens outputTokens].
    unfold get_opt. now rewrite Hnone.
  - unfold geminiChat in Hrun. returned Hrun. reads.
    match goal with
    | Hp : persona _ _ ?w1 = (_, ?w2) |- _ =>
        assert (Hsame : w2 = w1)
          by (rewrite <- (steady_persona indent12 gameContext w1);
              now rewrite Hp);
        subst w2
    end.
    do 2 eexists. split; [reflexivity |]. split; [eassumption |].
    split; [reflexivity |]. split; [reflexivity |].
    intros Hnone. cbn [usage inputTokens outputTokens].
    unfold get_opt. now rewrite Hnone.
Qed.

Lemma gemini_counts_default_to_zero_witness :
  exists r w',
    generateStoryBeat
      (sample_host (Returned gemini_reply_with_one_count) offline)
      "Begin" AIProvider.GEMINI empty_world
    = (Returned r, w')
    /\ inputTokens (usage r) = VNum 100
    /\ outputTokens (usage r) = VNum 0.
Proof.
  eexists. eexists. split.
  - vm_compute. reflexivity.
  - match goal with
    | |- inputTokens (usage ?r) = _ /\ _ =>
        destruct
          (gemini_counts_default_to_zero
             (sample_host (Returned gemini_reply_with_one_count) offline)
             "Begin" "" "" standard_quality VUndefined empty_world r
             {| localStorage := ∅;
                network := [geminiStoryRequest "" "Begin"] |})
          as (request & response & _ & Hreply & Hin & Hout & _)
    end.
    + left. vm_compute. reflexivity.
    + assert (Hresponse : response = gemini_reply_with_one_count)
        by (injection Hreply as <-; reflexivity).
      subst response. split; [exact Hin | exact Hout].
Defined.

(** ** Images *)

Lemma first_inline_image_found (before after : list value) (part : value) :
  Forall (fun p => nullish p = false
                   /\ truthy (prop p "inlineData") = false) before ->
  nullish part = false ->
  truthy (prop part "inlineData") = true ->
  first_inline_image (before ++ part :: after)
  = Returned
      (VStr ("data:image/png;base64,"
             +:+ ToString (prop (prop part "inlineData") "data"))).
Proof.
  intros Hbefore Hpart Hinline.
  induction Hbefore as [| p before [Hp Hno] _ IH]; cbn [app first_inline_image].
  - unfold get. now rewrite Hpart, Hinline.
  - unfold get at 1. now rewrite Hp, Hno.
Qed.

Lemma first_inline_image_none (parts : list value) :
  Forall (fun p => nullish p = false
                   /\ truthy (prop p "inlineData") = false) parts ->
  first_inline_image parts = Returned VUndefined.
Proof.
  intros Hparts.
  induction Hparts as [| p parts [Hp Hno] _ IH]; cbn [first_inline_image].
  - reflexivity.
  - unfold get at 1. now rewrite Hp, Hno.
Qed.

(** X10: the image of Gemini is the first part of the first candidate that
    carries inline data, as a PNG data URL; the parts before it are passed
    over and the parts after it are not looked at. *)
Theorem gemini_image_is_the_first_inline_part
    (host : Host) (prompt style : string) (quality : Quality) (w : World)
    (response : value) (before after : list value) (part : value) :
  (forall req, sdk host req = Returned response) ->
  nullish response = false ->
  get_opt (get_opt (get_index_opt (prop response "candidates") 0) "content")
    "parts"
  = VArr (before ++ part :: after) ->
  Forall (fun p => nullish p = false
                   /\ truthy (prop p "inlineData") = false) before ->
  nullish part = false ->
  truthy (prop part "inlineData") = true ->
  fst (generateImage host prompt style AIProvider.GEMINI quality w)
  = Returned
      {| data :=
           VStr ("data:image/png;base64,"
                 +:+ ToString (prop (prop part "inlineData") "data"));
         usage :=
           {| inputTokens :=
                get_opt (prop response "usageMetadata") "promptTokenCount"
                ||| VNum 0;
              outputTokens :=
                get_opt (prop response "usageMetadata") "candidatesTokenCount"
                ||| VNum 0;
              isPremium := Some false;
              provider := AIProvider.GEMINI |} |}.
Proof.
  intros Hsdk Hresp Hparts Hbefore Hpart Hinline.
  cbv beta iota zeta delta [generateImage try_catch geminiGenerateImage
                             bind send lift getProviderKey read_storage].
  change (switch AIProvider.GEMINI) with CaseGemini. cbv beta iota.
  rewrite Hsdk. unfold get at 1. rewrite Hresp, Hparts.
  cbn [or_else truthy iterate].
  rewrite (first_inline_image_found before after part Hbefore Hpart Hinline).
  unfold get. rewrite Hresp. reflexivity.
Qed.

Lemma gemini_image_is_the_first_inline_part_witness :
  fst (generateImage
         (sample_host (Returned gemini_image_reply) offline)
         "A scene" "fantasy" AIProvider.GEMINI standard_quality empty_world)
  = Returned
      {| data := VStr "data:image/png;base64,iVBOR";
         usage := {| inputTokens := VNum 50;
                     outputTokens := VNum 10;
                     isPremium := Some false;
                     provider := AIProvider.GEMINI |} |}.
Proof.
  apply (gemini_image_is_the_first_inline_part
           (sample_host (Returned gemini_image_reply) offline)
           "A scene" "fantasy" standard_quality empty_world
           gemini_image_reply [] []
           (VObj [("inlineData", VObj [("data", VStr "iVBOR")])])).
  - intros req. reflexivity.
  - reflexivity.
  - reflexivity.
  - constructor.
  - reflexivity.
  - reflexivity.
Defined.

(** X11: a Gemini reply without an image is a result, not a failure: when no
    part carries inline data (no candidate, no part, or text parts only) the
    call returns [undefined] as its data. *)
Theorem gemini_reply_without_image_is_a_result
    (host : Host) (prompt style : string) (quality : Quality) (w : World)
    (response : value) (parts : list value) :
  (forall req, sdk host req = Returned response) ->
  nullish response = false ->
  get_opt (get_opt (get_index_opt (prop response "candidates") 0) "content")
    "parts"
  ||| VArr []
  = VArr parts ->
  Forall (fun p => nullish p = false
                   /\ truthy (prop p "inlineData") = false) parts ->
  exists r,
    fst (generateImage host prompt style AIProvider.GEMINI quality w)
    = Returned r
    /\ data r = VUndefined
    /\ isPremium (usage r) = Some false.
Proof.
  intros Hsdk Hresp Hparts Hnone.
  cbv beta iota zeta delta [generateImage try_catch geminiGenerateImage
                             bind send lift getProviderKey read_storage].
  change (switch AIProvider.GEMINI) with CaseGemini. cbv beta iota.
  rewrite Hsdk. unfold get at 1. rewrite Hresp, Hparts.
  cbn [iterate]. rewrite (first_inline_image_none parts Hnone).
  unfold get. rewrite Hresp. eexists. split; [reflexivity |].
  split; reflexivity.
Qed.

Lemma gemini_reply_without_image_is_a_result_witness :
  exists r,
    fst (generateImage
           (sample_host (Returned (VObj [("candidates", VArr [])])) offline)
           "A scene" "fantasy" AIProvider.GEMINI fast empty_world)
    = Returned r
    /\ data r = VUndefined
    /\ isPremium (usage r) = Some false.
Proof.
  apply (gemini_reply_without_image_is_a_result
           (sample_host (Returned (VObj [("candidates", VArr [])])) offline)
           "A scene" "fantasy" fast empty_world
           (VObj [("candidates", VArr [])]) []).
  - intros req. reflexivity.
  - reflexivity.
  - reflexivity.
  - constructor.
Defined.

(** X12: an HTTP error reply to the image call of OpenAI is raised with the
    status text and the body of the reply in its message. *)
Theorem openai_image_error_carries_the_body
    (host : Host) (prompt style : string) (quality : Quality) (w : World)
    (response : Response) (body : string) :
  (forall req, http host req = Returned response) ->
  ok response = false ->
  text response = Returned body ->
  fst (generateImage host prompt style AIProvider.OPENAI quality w)
  = Thrown (Error ("OpenAI API error: " +:+ statusText response
                   +:+ " - " +:+ body)).
Proof.
  intros Hhttp Hok Hbody.
  cbv beta iota zeta delta [generateImage try_catch openaiGenerateImage
                             bind send lift getProviderKey read_storage].
  change (switch AIProvider.OPENAI) with CaseOpenAI. cbv beta iota.
  rewrite Hhttp, Hok. cbn [negb]. rewrite Hbody. reflexivity.
Qed.

Lemma openai_image_error_carries_the_body_witness :
  fst (generateImage
         (sample_host (Thrown VUndefined)
            (Returned (error_response 400 "Bad Request" "content policy")))
         "A scene" "fantasy" AIProvider.OPENAI standard_quality empty_world)
  = Thrown (Error "OpenAI API error: Bad Request - content policy").
Proof.
  apply (openai_image_error_carries_the_body
           (sample_host (Thrown VUndefined)
              (Returned (error_response 400 "Bad Request" "content policy")))
           "A scene" "fantasy" standard_quality empty_world
           (error_response 400 "Bad Request" "content policy")
           "content policy").
  - intros req. reflexivity.
  - reflexivity.
  - reflexivity.
Defined.

(** ** Credentials *)

Lemma key_name_injective (p q : string) :
  API_KEY_STORAGE_PREFIX +:+ p = API_KEY_STORAGE_PREFIX +:+ q -> p = q.
Proof.
  unfold API_KEY_STORAGE_PREFIX. simpl. intros H. now inversion H.
Qed.

(** X13: the credentials of the providers are kept apart: storing or
    deleting the secret of one provider changes neither the secret nor the
    presence of another. *)
Theorem credentials_are_kept_apart
    (p q secret : string) (st : gmap string string) :
  p <> q ->
  getStoredApiKey q (setStoredApiKey p secret st) = getStoredApiKey q st
  /\ hasApiKey q (setStoredApiKey p secret st) = hasApiKey q st.
Proof.
  intros Hpq.
  assert (Hkey : API_KEY_STORAGE_PREFIX +:+ p <> API_KEY_STORAGE_PREFIX +:+ q).
  { intros H. apply Hpq. now apply key_name_injective. }
  assert (Hget : getStoredApiKey q (setStoredApiKey p secret st)
                 = getStoredApiKey q st).
  { unfold getStoredApiKey, setStoredApiKey.
    destruct (negb (String.eqb secret "")).
    - now rewrite lookup_insert_ne.
    - now rewrite lookup_delete_ne. }
  split; [exact Hget |]. unfold hasApiKey. now rewrite Hget.
Qed.

Lemma credentials_are_kept_apart_witness :
  getStoredApiKey "claude"
    (setStoredApiKey "openai" "" (setStoredApiKey "claude" "sk-ant" ∅))
  = getStoredApiKey "claude" (setStoredApiKey "claude" "sk-ant" ∅).
Proof.
  apply (credentials_are_kept_apart "openai" "claude" ""
           (setStoredApiKey "claude" "sk-ant" ∅)).
  discriminate.
Defined.

(** X14: [clearAllApiKeys] removes the three credential entries and nothing
    else: every other entry of the storage, the saves among them, is as it
    was. *)
Theorem clearAll_spares_other_entries
    (k : string) (st : gmap string string) :
  (forall p, In p AIProvider.values -> k <> API_KEY_STORAGE_PREFIX +:+ p) ->
  clearAllApiKeys st !! k = st !! k.
Proof.
  intros Hk. unfold clearAllApiKeys. simpl fold_left.
  rewrite !lookup_delete_ne; [reflexivity | | |];
    intros Heq; symmetry in Heq; revert Heq; apply Hk; simpl; auto.
Qed.

Lemma clearAll_spares_other_entries_witness :
  clearAllApiKeys
    (<[App.STORAGE_KEY := "[]"]> (setStoredApiKey "gemini" "AIza" ∅))
  !! App.STORAGE_KEY
  = Some "[]".
Proof.
  rewrite (clearAll_spares_other_entries App.STORAGE_KEY).
  - apply lookup_insert_eq.
  - intros p [<- | [<- | [<- | []]]]; discriminate.
Defined.

Lemma stored_key_after_set (p key : string) (st : gmap string string) :
  key <> "" -> getStoredApiKey p (setStoredApiKey p key st) = key.
Proof.
  intros Hkey. apply String.eqb_neq in Hkey.
  unfold getStoredApiKey, setStoredApiKey. rewrite Hkey. cbn [negb].
  now rewrite lookup_insert_eq, Hkey.
Qed.

Lemma story_request_is_sent
    (host : Host) (prompt p : string) (w : World) :
  In p AIProvider.values ->
  network (snd (generateStoryBeat host prompt p w))
  = (network w
     ++ [story_request p (getStoredApiKey p (localStorage w)) prompt])%list.
Proof.
  intros Hp. unfold generateStoryBeat.
  rewrite snd_try_catch by (intros e; apply classify_steady).
  unfold story_request.
  destruct (switch_supported p Hp) as [[-> Hs] | [[-> Hs] | [-> Hs]]];
    rewrite Hs.
  - unfold geminiGenerateStory. unfold bind at 1, getProviderKey, read_storage.
    rewrite snd_bind_send; [reflexivity |]. auto 20 with steady.
  - unfold openaiGenerateStory. unfold bind at 1, getProviderKey, read_storage.
    rewrite snd_bind_send; [reflexivity |]. auto 30 with steady.
  - unfold claudeGenerateStory. unfold bind at 1, getProviderKey, read_storage.
    rewrite snd_bind_send; [reflexivity |]. auto 30 with steady.
Qed.

(** X15: the story call of a supported provider always issues its request,
    with the credential found in the store at that moment: the secret last
    stored for the provider, and the empty string when none is stored (the
    call is not held back for want of a credential). *)
Theorem story_request_carries_the_stored_key
    (host : Host) (prompt p key : string)
    (st : gmap string string) (log : list Request) :
  In p AIProvider.values ->
  (key <> "" ->
   network
     (snd (generateStoryBeat host prompt p
             {| localStorage := setStoredApiKey p key st; network := log |}))
   = (log ++ [story_request p key prompt])%list)
  /\ (st !! (API_KEY_STORAGE_PREFIX +:+ p) = None ->
      network
        (snd (generateStoryBeat host prompt p
                {| localStorage := st; network := log |}))
      = (log ++ [story_request p "" prompt])%list).
Proof.
  intros Hp. split.
  - intros Hkey. rewrite (story_request_is_sent host prompt p _ Hp).
    cbn [localStorage network]. now rewrite stored_key_after_set.
  - intros Hnone. rewrite (story_request_is_sent host prompt p _ Hp).
    cbn [localStorage network]. unfold getStoredApiKey. now rewrite Hnone.
Qed.

Lemma story_request_carries_the_stored_key_witness :
  network
    (snd (generateStoryBeat (sample_host (Thrown VUndefined) offline)
            "test" AIProvider.OPENAI
            {| localStorage := setStoredApiKey AIProvider.OPENAI "sk-test" ∅;
               network := [] |}))
  = [Fetch "https://api.openai.com/v1/chat/completions"
       (post [("Authorization", VStr "Bearer sk-test");
              ("Content-Type", VStr "application/json")]
          (VObj [("model", VStr "gpt-4o-mini");
                 ("messages",
                  VArr [VObj [("role", VStr "user");
                              ("content", VStr "test")]]);
                 ("response_format", VObj [("type", VStr "json_object")])]))].
Proof.
  destruct (story_request_carries_the_stored_key
              (sample_host (Thrown VUndefined) offline)
              "test" AIProvider.OPENAI "sk-test" ∅ [])
    as [Hset _].
  - simpl. auto.
  - rewrite Hset by discriminate. reflexivity.
Defined.

(** ** The cost of a session *)

(** X16: over the rationals, the estimate is additive: the cost of two
    usages taken together is the sum of their costs, for every provider
    identifier and model type.  The statement is about the formula with
    exact arithmetic, [==] on Q; the source evaluates the same formula in
    binary64, where the two sides can differ by the rounding of the last
    bit. *)
Theorem cost_is_additive
    (p : string) (modelType : ModelType)
    (i1 o1 m1 k1 i2 o2 m2 k2 : Q) :
  (calculateEstimatedCost (i1 + i2) (o1 + o2) (m1 + m2) (k1 + k2) p modelType
   == calculateEstimatedCost i1 o1 m1 k1 p modelType
      + calculateEstimatedCost i2 o2 m2 k2 p modelType)%Q.
Proof.
  unfold calculateEstimatedCost. cbv zeta.
  generalize (match switch p with
              | CaseGemini =>
                  if is_pro modelType then PRICING.GEMINI_PRO
                  else PRICING.GEMINI_FLASH
              | CaseOpenAI =>
                  if is_pro modelType then PRICING.OPENAI_GPT4
                  else PRICING.OPENAI_GPT3_5
              | CaseClaude =>
                  if is_pro modelType then PRICING.CLAUDE_SONNET
                  else PRICING.CLAUDE_HAIKU
              | CaseDefault => PRICING.GEMINI_FLASH
              end).
  intros pricing. ring.
Qed.

Lemma pricing_cases (p : string) (modelType : ModelType) :
  exists base elevated,
    In (base, elevated)
      [(PRICING.GEMINI_FLASH, PRICING.GEMINI_PRO);
       (PRICING.OPENAI_GPT3_5, PRICING.OPENAI_GPT4);
       (PRICING.CLAUDE_HAIKU, PRICING.CLAUDE_SONNET);
       (PRICING.GEMINI_FLASH, PRICING.GEMINI_FLASH)]
    /\ (forall i o m k,
           calculateEstimatedCost i o m k p modelType
           = (let r := if is_pro modelType then elevated else base in
              i * input r + o * output r + (m * image r + k * image r))%Q)
    /\ (forall i o m k,
           calculateEstimatedCost i o m k p pro
           = (i * input elevated + o * output elevated
              + (m * image elevated + k * image elevated))%Q).
Proof.
  unfold calculateEstimatedCost.
  destruct (switch p); do 2 eexists;
    (split; [| split; intros; destruct modelType; reflexivity]);
    simpl; auto.
Qed.

Lemma rates_are_ordered (base elevated : Pricing) :
  In (base, elevated)
    [(PRICING.GEMINI_FLASH, PRICING.GEMINI_PRO);
     (PRICING.OPENAI_GPT3_5, PRICING.OPENAI_GPT4);
     (PRICING.CLAUDE_HAIKU, PRICING.CLAUDE_SONNET);
     (PRICING.GEMINI_FLASH, PRICING.GEMINI_FLASH)] ->
  (0 <= input base /\ input base <= input elevated
   /\ 0 <= output base /\ output base <= output elevated
   /\ 0 <= image base /\ image base <= image elevated)%Q.
Proof.
  intros [H | [H | [H | [H | []]]]]; inversion H; subst;
    (split; [| split; [| split; [| split; [| split]]]]);
    vm_compute; intros Hc; discriminate Hc.
Qed.

Lemma sum_nonnegative (a b : Q) : (0 <= a -> 0 <= b -> 0 <= a + b)%Q.
Proof. intros Ha Hb. exact (Qplus_le_compat 0 a 0 b Ha Hb). Qed.

Lemma term_bounds (x low high : Q) :
  (0 <= x -> 0 <= low -> low <= high -> 0 <= x * low /\ x * low <= x * high)%Q.
Proof.
  intros Hx Hlow Hle. split.
  - now apply Qmult_le_0_compat.
  - rewrite !(Qmult_comm x). now apply Qmult_le_compat_r.
Qed.

(** X17: for counts that are not negative the estimate is not negative, and
    the 'pro' model type never costs less than any other model type of the
    same provider. *)
Theorem cost_is_nonnegative_and_pro_is_dearest
    (p : string) (modelType : ModelType) (i o m k : Q) :
  (0 <= i)%Q -> (0 <= o)%Q -> (0 <= m)%Q -> (0 <= k)%Q ->
  (0 <= calculateEstimatedCost i o m k p modelType)%Q
  /\ (calculateEstimatedCost i o m k p modelType
      <= calculateEstimatedCost i o m k p pro)%Q.
Proof.
  intros Hi Ho Hm Hk.
  destruct (pricing_cases p modelType)
    as (base & elevated & Hin & Hcost & Hpro).
  destruct (rates_are_ordered base elevated Hin)
    as (Hi0 & Hi1 & Ho0 & Ho1 & Hm0 & Hm1).
  rewrite Hcost, Hpro. cbv zeta.
  assert (He : (0 <= input elevated /\ 0 <= output elevated
                /\ 0 <= image elevated)%Q).
  { split; [| split];
      [ exact (Qle_trans _ _ _ Hi0 Hi1)
      | exact (Qle_trans _ _ _ Ho0 Ho1)
      | exact (Qle_trans _ _ _ Hm0 Hm1) ]. }
  destruct He as (Hie & Hoe & Hme).
  destruct (is_pro modelType).
  - split; [| apply Qle_refl].
    apply sum_nonnegative; apply sum_nonnegative;
      now apply Qmult_le_0_compat.
  - destruct (term_bounds i _ _ Hi Hi0 Hi1) as [A1 A2].
    destruct (term_bounds o _ _ Ho Ho0 Ho1) as [B1 B2].
    destruct (term_bounds m _ _ Hm Hm0 Hm1) as [C1 C2].
    destruct (term_bounds k _ _ Hk Hm0 Hm1) as [D1 D2].
    split.
    + apply sum_nonnegative; apply sum_nonnegative; assumption.
    + apply Qplus_le_compat; apply Qplus_le_compat; assumption.
Qed.

Lemma cost_is_nonnegative_and_pro_is_dearest_witness :
  (0 <= calculateEstimatedCost 1000 500 2 1 "claude" flash)%Q
  /\ (calculateEstimatedCost 1000 500 2 1 "claude" flash
      <= calculateEstimatedCost 1000 500 2 1 "claude" pro)%Q.
Proof.
  apply (cost_is_nonnegative_and_pro_is_dearest "claude" flash 1000 500 2 1);
    vm_compute; intros H; discriminate H.
Defined.

(** * Further properties of the App *)

(** ** The history that is saved *)

Lemma withoutImage_twice (h : App.GameHistoryItem) :
  App.withoutImage (App.withoutImage h) = App.withoutImage h.
Proof. reflexivity. Qed.

Lemma strip_twice (l : list App.GameHistoryItem) :
  map App.withoutImage (map App.withoutImage l) = map App.withoutImage l.
Proof.
  induction l as [| h l IH]; [reflexivity |].
  cbn [map]. now rewrite IH.
Qed.

Lemma strip_keeps_narrative (l : list App.GameHistoryItem) :
  map narrative (map App.withoutImage l) = map narrative l.
Proof.
  induction l as [| h l IH]; [reflexivity |].
  cbn [map]. now rewrite IH.
Qed.

Lemma strip_has_no_image (l : list App.GameHistoryItem) :
  Forall (fun h => App.imageUrl h = None) (map App.withoutImage l).
Proof.
  induction l as [| h l IH]; cbn [map]; constructor;
    [reflexivity | exact IH].
Qed.

(** X18: the lean history has the entries of the history, in their order and
    with their text, choice and state; its first entry is untouched and no
    later entry has an image; making it lean twice, or stripping it, is the
    same as doing so once. *)
Theorem leanHistory_keeps_the_story_and_the_latest_image
    (history : list App.GameHistoryItem) :
  length (App.leanHistory history) = length history
  /\ map narrative (App.leanHistory history) = map narrative history
  /\ hd_error (App.leanHistory history) = hd_error history
  /\ Forall (fun h => App.imageUrl h = None) (tl (App.leanHistory history))
  /\ App.leanHistory (App.leanHistory history) = App.leanHistory history
  /\ map App.withoutImage (App.leanHistory history)
     = map App.withoutImage history.
Proof.
  destruct history as [| latest older]; cbn [App.leanHistory].
  - repeat split; constructor.
  - split; [cbn [length]; now rewrite length_map |].
    split; [cbn [map]; now rewrite strip_keeps_narrative |].
    split; [reflexivity |].
    split; [apply strip_has_no_image |].
    split; [now rewrite strip_twice |].
    cbn [map]. now rewrite strip_twice.
Qed.

(** ** The slots after a sync *)

Lemma updatedSaves_nth (gameState : value) (saveId : string)
    (c : App.Component) (now : Z) (prev : list App.SaveSlot) (n : nat) :
  nth_error (App.updatedSaves gameState saveId c now prev) n
  = option_map
      (fun s =>
         if String.eqb (App.id s) saveId
         then {| App.id := App.id s; App.name := App.name s;
                 App.genre := App.genre s; App.lastUpdated := now;
                 App.gameState := gameState;
                 App.history := App.leanHistory (App.currentHistory c);
                 App.chatMessages := App.currentChatMessages c;
                 App.usageStats := App.currentUsageStats c |}
         else s)
      (nth_error prev n).
Proof. unfold App.updatedSaves. apply nth_error_map. Qed.

(** X19: the sync writes the game into the slots that bear its id and into
    no other: the slots keep their number, order and ids, a slot with
    another id is unchanged, a slot with the id takes the state, the lean
    history, the chat, the statistics and the time, keeping its id, name and
    genre; without a slot of that id nothing changes. *)
Theorem sync_touches_only_its_slot
    (gameState : value) (saveId : string) (c : App.Component) (now : Z)
    (prev : list App.SaveSlot) :
  map App.id (App.updatedSaves gameState saveId c now prev) = map App.id prev
  /\ (forall n s,
         nth_error prev n = Some s -> App.id s <> saveId ->
         nth_error (App.updatedSaves gameState saveId c now prev) n = Some s)
  /\ (forall n s,
         nth_error prev n = Some s -> App.id s = saveId ->
         nth_error (App.updatedSaves gameState saveId c now prev) n
         = Some {| App.id := saveId; App.name := App.name s;
                   App.genre := App.genre s; App.lastUpdated := now;
                   App.gameState := gameState;
                   App.history := App.leanHistory (App.currentHistory c);
                   App.chatMessages := App.currentChatMessages c;
                   App.usageStats := App.currentUsageStats c |})
  /\ ((forall s, In s prev -> App.id s <> saveId) ->
      App.updatedSaves gameState saveId c now prev = prev).
Proof.
  split; [| split; [| split]].
  - unfold App.updatedSaves. rewrite map_map. apply map_ext.
    intros s. now destruct (String.eqb (App.id s) saveId).
  - intros n s Hn Hid. rewrite updatedSaves_nth, Hn. cbn [option_map].
    apply String.eqb_neq in Hid. now rewrite Hid.
  - intros n s Hn Hid. rewrite updatedSaves_nth, Hn. cbn [option_map].
    subst saveId. now rewrite String.eqb_refl.
  - intros Hnone. unfold App.updatedSaves.
    induction prev as [| s prev IH]; [reflexivity |].
    cbn [map]. rewrite IH by (intros s' Hs'; apply Hnone; now right).
    assert (Hid : App.id s <> saveId) by (apply Hnone; now left).
    apply String.eqb_neq in Hid. now rewrite Hid.
Qed.

Lemma sync_touches_only_its_slot_witness :
  nth_error (App.updatedSaves (VObj []) "slot-1" playing 1 saves) 1
  = Some (slot "slot-2" [scene "0" (Some "data:image/png;base64,CCCC")])
  /\ App.updatedSaves (VObj []) "slot-9" playing 1 saves = saves.
Proof.
  destruct (sync_touches_only_its_slot (VObj []) "slot-1" playing 1 saves)
    as (_ & Hother & _ & _).
  destruct (sync_touches_only_its_slot (VObj []) "slot-9" playing 1 saves)
    as (_ & _ & _ & Habsent).
  split.
  - apply Hother; [reflexivity | discriminate].
  - apply Habsent. intros s [<- | [<- | []]]; discriminate.
Defined.

Lemma sync_completed_with
    (rejects : list App.SaveSlot -> option App.Exception)
    (gameState : value) (saveId : string) (c : App.Component) (now : Z)
    (prev : list App.SaveSlot) (st : App.Store) (u : list App.SaveSlot) :
  fst (App.syncSaves rejects gameState saveId c now prev st)
  = App.Completed u ->
  u = App.updatedSaves gameState saveId c now prev.
Proof.
  unfold App.syncSaves, App.setItem.
  destruct (rejects (App.updatedSaves gameState saveId c now prev))
    as [error |].
  - destruct (App.isQuotaExceeded error).
    + destruct (rejects (App.superLeanSaves _)) as [error2 |]; cbn;
        intros H; [discriminate H | now inversion H].
    + cbn. intros H. now inversion H.
  - cbn. intros H. now inversion H.
Qed.

(** X20: whatever the storage does, the sync never strips the state of the
    component: when the updater completes it returns the slots with the lean
    history, the image of the latest scene included, and what the storage
    then holds is its former content, these slots, or these slots without
    their images. *)
Theorem sync_never_strips_the_state
    (rejects : list App.SaveSlot -> option App.Exception)
    (gameState : value) (saveId : string) (c : App.Component) (now : Z)
    (prev : list App.SaveSlot) (st : App.Store) :
  (forall u,
      fst (App.syncSaves rejects gameState saveId c now prev st)
      = App.Completed u ->
      u = App.updatedSaves gameState saveId c now prev)
  /\ (App.saved (snd (App.syncSaves rejects gameState saveId c now prev st))
      = App.saved st
      \/ App.saved (snd (App.syncSaves rejects gameState saveId c now prev st))
         = Some (App.updatedSaves gameState saveId c now prev)
      \/ App.saved (snd (App.syncSaves rejects gameState saveId c now prev st))
         = Some (App.superLeanSaves
                   (App.updatedSaves gameState saveId c now prev))).
Proof.
  split; [intros u; apply sync_completed_with |].
  unfold App.syncSaves, App.setItem.
  destruct (rejects (App.updatedSaves gameState saveId c now prev))
    as [error |].
  - destruct (App.isQuotaExceeded error).
    + destruct (rejects (App.superLeanSaves _)) as [error2 |]; cbn;
        [now left | now right; right].
    + cbn. now left.
  - cbn. now right; left.
Qed.

(** X21: the failures of the first write.  A failure over the quota is
    followed by one more write, of the slots without any image: when that
    write goes through the storage holds the stripped slots and the updater
    completes with the updated ones; when it fails too its exception leaves
    the updater and the storage keeps what it had.  A failure of another
    kind is dropped without a second write: the storage keeps what it had
    and the updater completes. *)
Theorem sync_degrades_on_a_storage_failure
    (rejects : list App.SaveSlot -> option App.Exception)
    (gameState : value) (saveId : string) (c : App.Component) (now : Z)
    (prev : list App.SaveSlot) (st : App.Store) (error : App.Exception) :
  rejects (App.updatedSaves gameState saveId c now prev) = Some error ->
  (App.isQuotaExceeded error = true ->
   rejects
     (App.superLeanSaves (App.updatedSaves gameState saveId c now prev))
   = None ->
   App.syncSaves rejects gameState saveId c now prev st
   = (App.Completed (App.updatedSaves gameState saveId c now prev),
      {| App.saved :=
           Some (App.superLeanSaves
                   (App.updatedSaves gameState saveId c now prev));
         App.attempts :=
           (App.attempts st
            ++ [App.updatedSaves gameState saveId c now prev;
                App.superLeanSaves
                  (App.updatedSaves gameState saveId c now prev)])%list |}))
  /\ (forall error2,
      App.isQuotaExceeded error = true ->
      rejects
        (App.superLeanSaves (App.updatedSaves gameState saveId c now prev))
      = Some error2 ->
      App.syncSaves rejects gameState saveId c now prev st
      = (App.Raised error2,
         {| App.saved := App.saved st;
            App.attempts :=
              (App.attempts st
               ++ [App.updatedSaves gameState saveId c now prev;
                   App.superLeanSaves
                     (App.updatedSaves gameState saveId c now prev)])%list
         |}))
  /\ (App.isQuotaExceeded error = false ->
      App.syncSaves rejects gameState saveId c now prev st
      = (App.Completed (App.updatedSaves gameState saveId c now prev),
         {| App.saved := App.saved st;
            App.attempts :=
              (App.attempts st
               ++ [App.updatedSaves gameState saveId c now prev])%list |})).
Proof.
  intros Hfirst. split; [| split].
  - intros Hquota Hretry.
    now apply (quota_failure_strips_and_retries_once rejects gameState saveId
                 c now prev st error Hfirst Hquota).
  - intros error2 Hquota Hretry.
    unfold App.syncSaves, App.setItem. rewrite Hfirst, Hquota, Hretry.
    cbn [App.attempts App.saved]. now rewrite <- List.app_assoc.
  - intros Hother.
    now apply (other_failure_is_dropped rejects gameState saveId c now prev
                 st error Hfirst).
Qed.

Lemma sync_degrades_on_a_storage_failure_witness :
  App.syncSaves tight_storage (VObj []) "slot-1" playing 1 saves empty_store
  = (App.Completed (App.updatedSaves (VObj []) "slot-1" playing 1 saves),
     {| App.saved :=
          Some (App.superLeanSaves
                  (App.updatedSaves (VObj []) "slot-1" playing 1 saves));
        App.attempts :=
          [App.updatedSaves (VObj []) "slot-1" playing 1 saves;
           App.superLeanSaves
             (App.updatedSaves (VObj []) "slot-1" playing 1 saves)] |})
  /\ App.syncSaves full_storage (VObj []) "slot-1" playing 1 saves empty_store
     = (App.Raised QuotaExceededError,
        {| App.saved := None;
           App.attempts :=
             [App.updatedSaves (VObj []) "slot-1" playing 1 saves;
              App.superLeanSaves
                (App.updatedSaves (VObj []) "slot-1" playing 1 saves)] |}).
Proof.
  split.
  - destruct (sync_degrades_on_a_storage_failure tight_storage (VObj [])
                "slot-1" playing 1 saves empty_store QuotaExceededError)
      as (Hquota & _ & _).
    + reflexivity.
    + apply Hquota; reflexivity.
  - destruct (sync_degrades_on_a_storage_failure full_storage (VObj [])
                "slot-1" playing 1 saves empty_store QuotaExceededError)
      as (_ & Hretry & _).
    + reflexivity.
    + apply (Hretry QuotaExceededError); reflexivity.
Defined.

(** X22: the slots written after a quota failure have lost their images and
    nothing else: every slot keeps its id, name, genre, time, game state,
    chat and statistics, and every entry of every history keeps its text,
    choice and state. *)
Theorem stripped_saves_keep_the_narrative (updated : list App.SaveSlot) :
  Forall
    (fun s => Forall (fun h => App.imageUrl h = None) (App.history s))
    (App.superLeanSaves updated)
  /\ map slot_header (App.superLeanSaves updated) = map slot_header updated
  /\ map App.usageStats (App.superLeanSaves updated)
     = map App.usageStats updated
  /\ map (fun s => map narrative (App.history s))
       (App.superLeanSaves updated)
     = map (fun s => map narrative (App.history s)) updated.
Proof.
  split; [apply superLeanSaves_has_no_image |].
  unfold App.superLeanSaves. rewrite !map_map.
  split; [| split]; apply map_ext; intros s; try reflexivity.
  cbn [App.withHistory App.history]. apply strip_keeps_narrative.
Qed.

(** X23: loading a slot of the running game after a sync gives back the game
    as the component had it, with the lean history in place of the
    history. *)
Theorem load_after_sync
    (rejects : list App.SaveSlot -> option App.Exception)
    (gameState : value) (saveId : string) (c : App.Component) (now : Z)
    (prev : list App.SaveSlot) (st : App.Store)
    (u : list App.SaveSlot) (s : App.SaveSlot) :
  fst (App.syncSaves rejects gameState saveId c now prev st)
  = App.Completed u ->
  In s u ->
  App.id s = saveId ->
  App.loadSave s = synced_component gameState saveId c.
Proof.
  intros Hsync Hin Hid.
  rewrite (sync_completed_with rejects gameState saveId c now prev st u
             Hsync) in Hin.
  unfold App.updatedSaves in Hin. apply in_map_iff in Hin as (s0 & Hs & _).
  destruct (String.eqb (App.id s0) saveId) eqn:Heq.
  - subst s. apply String.eqb_eq in Heq. unfold App.loadSave,
      synced_component. cbn. now rewrite Heq.
  - subst s. apply String.eqb_neq in Heq. contradiction.
Qed.

Lemma load_after_sync_witness :
  App.loadSave
    {| App.id := "slot-1"; App.name := "slot-1"; App.genre := "Fantasy";
       App.lastUpdated := 1; App.gameState := VObj [];
       App.history :=
         [scene "2" (Some "data:image/png;base64,BBBB"); scene "1" None];
       App.chatMessages := [];
       App.usageStats := no_usage |}
  = synced_component (VObj []) "slot-1" playing.
Proof.
  apply (load_after_sync tight_storage (VObj []) "slot-1" playing 1 saves
           empty_store
           (App.updatedSaves (VObj []) "slot-1" playing 1 saves)).
  - reflexivity.
  - left. reflexivity.
  - reflexivity.
Defined.

(** ** Deleting a save *)

(** X24: deleting a save writes the remaining slots once and without a
    guard: when the write goes through, the slots returned and stored are
    the slots of before without those of the deleted id, in their order;
    when the storage rejects the write, its exception leaves the updater and
    the storage keeps what it had. *)
Theorem delete_removes_the_slot_and_keeps_the_rest
    (rejects : list App.SaveSlot -> option App.Exception) (saveId : string)
    (prev : list App.SaveSlot) (st : App.Store) :
  let filtered :=
    List.filter (fun s => negb (String.eqb (App.id s) saveId)) prev in
  (forall s, In s filtered <-> In s prev /\ App.id s <> saveId)
  /\ (rejects filtered = None ->
      App.deleteSaveUpdater rejects saveId prev st
      = (App.Completed filtered,
         {| App.saved := Some filtered;
            App.attempts := (App.attempts st ++ [filtered])%list |}))
  /\ (forall error,
         rejects filtered = Some error ->
         App.deleteSaveUpdater rejects saveId prev st
         = (App.Raised error,
            {| App.saved := App.saved st;
               App.attempts := (App.attempts st ++ [filtered])%list |})).
Proof.
  intros filtered. split; [| split].
  - intros s. unfold filtered. rewrite filter_In.
    split; intros [Hin Hid]; (split; [exact Hin |]).
    + apply negb_true_iff in Hid. now apply String.eqb_neq.
    + apply negb_true_iff. now apply String.eqb_neq.
  - intros Hok. unfold App.deleteSaveUpdater, App.setItem.
    fold filtered. now rewrite Hok.
  - intros error Hfail. unfold App.deleteSaveUpdater, App.setItem.
    fold filtered. now rewrite Hfail.
Qed.

Lemma delete_removes_the_slot_and_keeps_the_rest_witness :
  App.deleteSaveUpdater tight_storage "slot-2" saves empty_store
  = (App.Completed [slot "slot-1" []],
     {| App.saved := Some [slot "slot-1" []];
        App.attempts := [[slot "slot-1" []]] |})
  /\ App.deleteSaveUpdater full_storage "slot-2" saves empty_store
     = (App.Raised QuotaExceededError,
        {| App.saved := None; App.attempts := [[slot "slot-1" []]] |}).
Proof.
  destruct (delete_removes_the_slot_and_keeps_the_rest tight_storage
              "slot-2" saves empty_store) as (_ & Hok & _).
  destruct (delete_removes_the_slot_and_keeps_the_rest full_storage
              "slot-2" saves empty_store) as (_ & _ & Hfail).
  split.
  - apply Hok. reflexivity.
  - apply (Hfail QuotaExceededError). reflexivity.
Defined.

Lemma effect_is_idle
    (rejects : list App.SaveSlot -> option App.Exception)
    (c : App.Component) (now : Z) (prev : list App.SaveSlot)
    (st : App.Store) :
  App.gameStarted c = false ->
  App.saveEffect rejects c now prev st = (App.Completed prev, st).
Proof. intros H. unfold App.saveEffect. now rewrite H. Qed.

(** X25: a deleted game is not saved again: after [deleteSave] of the
    running game the component is reset, and the sync effect then leaves the
    slots and the storage alone; the deletion of another game leaves the
    component as it is. *)
Theorem deleted_game_is_not_saved_again
    (rejects : list App.SaveSlot -> option App.Exception) (saveId : string)
    (c : App.Component) (now : Z) (prev : list App.SaveSlot)
    (st : App.Store) :
  (App.currentSaveId c = Some saveId ->
   App.deleteSaveReset saveId c = idle_component
   /\ App.saveEffect rejects (App.deleteSaveReset saveId c) now prev st
      = (App.Completed prev, st))
  /\ (forall other,
         App.currentSaveId c = Some other -> other <> saveId ->
         App.deleteSaveReset saveId c = c).
Proof.
  split.
  - intros Hcur.
    assert (Hreset : App.deleteSaveReset saveId c = idle_component).
    { unfold App.deleteSaveReset. now rewrite Hcur, String.eqb_refl. }
    split; [exact Hreset |]. rewrite Hreset. now apply effect_is_idle.
  - intros other Hcur Hne. unfold App.deleteSaveReset. rewrite Hcur.
    apply String.eqb_neq in Hne. now rewrite Hne.
Qed.

Lemma deleted_game_is_not_saved_again_witness :
  App.saveEffect tight_storage (App.deleteSaveReset "slot-1" playing) 1
    saves empty_store
  = (App.Completed saves, empty_store).
Proof.
  destruct (deleted_game_is_not_saved_again tight_storage "slot-1" playing 1
              saves empty_store) as [Hreset _].
  destruct (Hreset eq_refl) as [_ Hidle]. exact Hidle.
Defined.

(** ** The usage of a session *)

Lemma updateUsage_adds (i o m k : Q) (modelType : GeminiService.ModelType)
    (prev : App.UsageStats) :
  App.updateUsage i o m k modelType prev
  = {| App.inputTokens := (App.inputTokens prev + i)%Q;
       App.outputTokens := (App.outputTokens prev + o)%Q;
       App.imageCount := (App.imageCount prev + m)%Q;
       App.premiumImageCount := (App.premiumImageCount prev + k)%Q;
       App.estimatedCost :=
         (App.estimatedCost prev
          + GeminiService.calculateEstimatedCost i o m k modelType)%Q |}.
Proof. reflexivity. Qed.

Lemma gemini_cost_is_additive (modelType : GeminiService.ModelType)
    (i1 o1 m1 k1 i2 o2 m2 k2 : Q) :
  (GeminiService.calculateEstimatedCost (i1 + i2) (o1 + o2) (m1 + m2)
     (k1 + k2) modelType
   == GeminiService.calculateEstimatedCost i1 o1 m1 k1 modelType
      + GeminiService.calculateEstimatedCost i2 o2 m2 k2 modelType)%Q.
Proof.
  unfold GeminiService.calculateEstimatedCost. cbv zeta.
  generalize (match modelType with
              | GeminiService.flash => GeminiService.PRICING.FLASH_TEXT
              | GeminiService.pro => GeminiService.PRICING.PRO_TEXT
              end).
  intros [rate_in rate_out]. cbn [fst snd].
  generalize GeminiService.PRICING.FLASH_IMAGE
    GeminiService.PRICING.PRO_IMAGE.
  intros flash_image pro_image. ring.
Qed.

Lemma gemini_cost_of_nothing (modelType : GeminiService.ModelType) :
  (GeminiService.calculateEstimatedCost 0 0 0 0 modelType == 0)%Q.
Proof.
  unfold GeminiService.calculateEstimatedCost. cbv zeta.
  generalize (match modelType with
              | GeminiService.flash => GeminiService.PRICING.FLASH_TEXT
              | GeminiService.pro => GeminiService.PRICING.PRO_TEXT
              end).
  intros [rate_in rate_out]. cbn [fst snd].
  generalize GeminiService.PRICING.FLASH_IMAGE
    GeminiService.PRICING.PRO_IMAGE.
  intros flash_image pro_image. ring.
Qed.

(** X26: the statistics of a session are the sums of its calls: after any
    sequence of [updateUsage] with one model type, each counter is the
    counter of before plus the total of the sequence, and the estimated cost
    is the cost of before plus the cost of the totals. *)
Theorem usage_accumulates
    (modelType : GeminiService.ModelType) (evs : list usage_event)
    (prev : App.UsageStats) :
  same_usage (after_events modelType evs prev)
    (plus_events modelType evs prev).
Proof.
  revert prev. induction evs as [| [[[i o] m] k] evs IH]; intros prev.
  - unfold after_events, plus_events, cost_of_events, same_usage.
    cbn [fold_left event_total fold_right App.inputTokens App.outputTokens
         App.imageCount App.premiumImageCount App.estimatedCost].
    rewrite gemini_cost_of_nothing.
    (split; [| split; [| split; [| split]]]); ring.
  - unfold after_events in *. cbn [fold_left apply_event].
    specialize (IH (App.updateUsage i o m k modelType prev)).
    unfold plus_events, cost_of_events, same_usage in *.
    change (event_total ((i, o, m, k) :: evs))
      with (add_events (i, o, m, k) (event_total evs)).
    destruct (event_total evs) as [[[ti to] tm] tk].
    cbn [add_events App.inputTokens App.outputTokens App.imageCount
         App.premiumImageCount App.estimatedCost] in *.
    rewrite updateUsage_adds in IH.
    cbn [App.inputTokens App.outputTokens App.imageCount
         App.premiumImageCount App.estimatedCost] in IH.
    destruct IH as (H1 & H2 & H3 & H4 & H5).
    rewrite H1, H2, H3, H4, H5, gemini_cost_is_additive.
    (split; [| split; [| split; [| split]]]); ring.
Qed.






(** X28: an image is counted once.  The usage of an image that came with
    data adds one to the premium counter in high resolution and one to the
    standard counter otherwise, never to both, and its cost is that of its
    tokens at the rates of the pro or of the flash model plus the price of
    one premium or one standard image. *)
Theorem image_is_counted_once
    (input output : Q) (useHighRes : bool) (prev : App.UsageStats) :
  (App.imageCount (App.updateImageUsage input output useHighRes prev)
   == App.imageCount prev + (if useHighRes then 0 else 1))%Q
  /\ (App.premiumImageCount
        (App.updateImageUsage input output useHighRes prev)
      == App.premiumImageCount prev + (if useHighRes then 1 else 0))%Q
  /\ (App.estimatedCost (App.updateImageUsage input output useHighRes prev)
      == App.estimatedCost prev
         + input * fst (if useHighRes then GeminiService.PRICING.PRO_TEXT
                        else GeminiService.PRICING.FLASH_TEXT)
         + output * snd (if useHighRes then GeminiService.PRICING.PRO_TEXT
                         else GeminiService.PRICING.FLASH_TEXT)
         + (if useHighRes then GeminiService.PRICING.PRO_IMAGE
            else GeminiService.PRICING.FLASH_IMAGE))%Q.
Proof.
  unfold App.updateImageUsage. rewrite updateUsage_adds.
  cbn [App.imageCount App.premiumImageCount App.estimatedCost].
  unfold GeminiService.calculateEstimatedCost.
  destruct useHighRes; cbv zeta;
    generalize GeminiService.PRICING.FLASH_TEXT
      GeminiService.PRICING.PRO_TEXT;
    intros [f_in f_out] [p_in p_out]; cbn [fst snd];
    generalize GeminiService.PRICING.FLASH_IMAGE
      GeminiService.PRICING.PRO_IMAGE;
    intros flash_image pro_image;
    (split; [| split]); ring.
Qed.

(** ** Errors on the screen *)

Lemma handleGenAIError_rule {A} (e : value) (w : World) :
  message_is_text e ->
  @GeminiService.handleGenAIError A e w
  = (Thrown (if credential_signal AIProvider.GEMINI e
             then API_KEY_ERROR else e), w).
Proof. intros Htext. exact (handleGeminiError_rule e w Htext). Qed.

(** X29: a credential failure reaches the key dialog.  When the story call
    of the App's service is rejected with an error that Gemini's rule reads
    as a credential failure, the call raises API_KEY_ERROR and
    [handleError] opens the key dialog and clears the three loading flags;
    an error that is no [Error] object, or one with another message, clears
    the flags and leaves the dialog as it is. *)
Theorem credential_failure_opens_the_key_dialog
    (host : Host) (key prompt : string) (w : World) (e : value)
    (ui : App.Indicators) :
  (forall req, sdk host req = Thrown e) ->
  message_is_text e ->
  credential_signal AIProvider.GEMINI e = true ->
  exists err,
    fst (GeminiService.generateStoryBeat host key prompt w) = Thrown err
    /\ App.handleError err ui
       = {| App.showKeyModal := true; App.loading := false;
            App.imageLoading := false; App.chatLoading := false |}
    /\ (forall other,
           (forall message, other = VError message ->
                            message <> "API_KEY_ERROR") ->
           App.handleError other ui
           = {| App.showKeyModal := App.showKeyModal ui;
                App.loading := false; App.imageLoading := false;
                App.chatLoading := false |}).
Proof.
  intros Hsdk Htext Hsig. exists API_KEY_ERROR. split; [| split].
  - cbv beta iota delta [GeminiService.generateStoryBeat try_catch bind send].
    rewrite Hsdk, handleGenAIError_rule by exact Htext. now rewrite Hsig.
  - reflexivity.
  - intros other Hother. unfold App.handleError.
    destruct other as [| | | | | | | message]; try reflexivity.
    specialize (Hother message eq_refl). apply String.eqb_neq in Hother.
    now rewrite Hother.
Qed.

Lemma credential_failure_opens_the_key_dialog_witness :
  exists err,
    fst (GeminiService.generateStoryBeat
           (sample_host (Thrown (error_object "code" 403 "Forbidden"))
              offline)
           "" "Begin" empty_world)
    = Thrown err
    /\ App.handleError err no_flags
       = {| App.showKeyModal := true; App.loading := false;
            App.imageLoading := false; App.chatLoading := false |}.
Proof.
  destruct (credential_failure_opens_the_key_dialog
              (sample_host (Thrown (error_object "code" 403 "Forbidden"))
                 offline)
              "" "Begin" empty_world (error_object "code" 403 "Forbidden")
              no_flags)
    as (err & Hrun & Hopen & _).
  - intros req. reflexivity.
  - exists "Forbidden". reflexivity.
  - reflexivity.
  - exists err. split; assumption.
Defined.

(** ** The chat of the single-provider service *)

(** X30: the chat of the App's service does not tolerate a game context
    without an inventory: with an inventory that is undefined, null or
    missing it raises the TypeError of the read of [join], which its
    classifier raises again as it is, and issues no request. *)
Theorem gemini_service_chat_raises_without_inventory
    (host : Host) (key message : string) (props : list (string * value))
    (w : World) :
  nullish (assoc "inventory" props) = true ->
  GeminiService.getChatResponse host key message (VObj props) w
  = (Thrown (TypeError_read (assoc "inventory" props) "join"), w).
Proof.
  intros Hinv.
  cbv beta iota delta [GeminiService.getChatResponse GeminiService.persona
                       try_catch bind lift get nullish prop].
  destruct (assoc "inventory" props); try discriminate Hinv; reflexivity.
Qed.

Lemma gemini_service_chat_raises_without_inventory_witness :
  GeminiService.getChatResponse
    (sample_host (Returned gemini_chat_reply) offline) "" "hello"
    (VObj context_without_inventory) empty_world
  = (Thrown (VError "Cannot read properties of undefined (reading 'join')"),
     empty_world).
Proof.
  apply (gemini_service_chat_raises_without_inventory
           (sample_host (Returned gemini_chat_reply) offline) "" "hello"
           context_without_inventory empty_world).
  reflexivity.
Defined.
